(** * Language detection engine (modules/language_detector.py)

    A shallow embedding of [LanguageDetector] and of the two convenience
    functions [detect_language] and [quick_detect], followed by the
    properties of the specification that concern them.

    Conventions.
    - A Python [str] is the list of its Unicode code points ([ord] of each
      character), a Python [int] is a [Z].
    - A Python [float] is an exact rational ([Q]) in the module
      [LanguageDetector].  The float operations of the source are one true
      division of two character counts, a multiplication by 100, an
      addition of 20, a subtraction from 100 (or from 1), comparisons and
      [min]; the rational model leaves their rounding out.  The module
      [Binary64] has the same functions on IEEE binary64 numbers; it is the
      one to read where the last bit decides, at the ends of the interval
      of [is_mixed_language] and between confidences that are equal in
      exact arithmetic.
    - An operation that can raise returns a [Res].  The calls made to the
      optional [langdetect] library are recorded in a log ([Run]), so that
      whether the fallback was invoked can be stated.
    - [logger] calls only format their arguments; the formatting that can
      raise (the slice [text[:50]] of the first line of [detect]) is kept,
      the output is not. *)

From Stdlib Require Import ZArith QArith Qabs Lqa Lia.
From Stdlib Require Import List Permutation String Ascii Bool.
From Stdlib Require PrimFloat Uint63 SpecFloat FloatOps.
From Stdlib Require Import DecimalString.
Import ListNotations.

Local Open Scope Z_scope.

(** ** Python runtime *)

Module Py.

(** A [str]: the sequence of its code points. *)
Definition str := list Z.

(** The values a caller can pass where a [str] is expected. *)
Inductive value : Type :=
| VNone
| VInt (n : Z)
| VList (items : list Z)
| VStr (s : str).

Inductive exn : Type :=
| TypeError
| ZeroDivisionError.

Inductive Res (A : Type) : Type :=
| Ok (a : A)
| Raise (e : exn).
Arguments Ok {A} a.
Arguments Raise {A} e.

Definition bind {A B : Type} (m : Res A) (k : A -> Res B) : Res B :=
  match m with
  | Ok a => k a
  | Raise e => Raise e
  end.

(** [str.isspace] on one character: the code points of CPython's
    [_PyUnicode_IsWhitespace]. *)
Definition isspace (c : Z) : bool :=
  ((0x0009 <=? c) && (c <=? 0x000D))
  || ((0x001C <=? c) && (c <=? 0x0020))
  || (c =? 0x0085) || (c =? 0x00A0) || (c =? 0x1680)
  || ((0x2000 <=? c) && (c <=? 0x200A))
  || (c =? 0x2028) || (c =? 0x2029) || (c =? 0x202F) || (c =? 0x205F)
  || (c =? 0x3000).

Fixpoint lstrip (s : str) : str :=
  match s with
  | [] => []
  | c :: s' => if isspace c then lstrip s' else s
  end.

Definition rstrip (s : str) : str := rev (lstrip (rev s)).

(** [text.strip()] *)
Definition strip (s : str) : str := rstrip (lstrip s).

(** [len(text)] *)
Definition len (s : str) : Z := Z.of_nat (List.length s).

(** [text[:n]] on a [str] *)
Definition prefix (n : nat) (s : str) : str := firstn n s.

(** [text[:n]] on an arbitrary value: [None] and [int] are not
    subscriptable. *)
Definition getslice (v : value) (n : nat) : Res value :=
  match v with
  | VNone => Raise TypeError
  | VInt _ => Raise TypeError
  | VList items => Ok (VList (firstn n items))
  | VStr s => Ok (VStr (prefix n s))
  end.

(** [a / b] on two [int]s. *)
Definition truediv (a b : Z) : Res Q :=
  if b =? 0 then Raise ZeroDivisionError
  else Ok (inject_Z a / inject_Z b)%Q.

(** [x > y] and [x <= y] on floats. *)
Definition fgt (x y : Q) : bool := negb (Qle_bool x y).
Definition fle (x y : Q) : bool := Qle_bool x y.

(** [min(x, y)]: the first argument unless the second is smaller. *)
Definition min (x y : Q) : Q := if fgt x y then y else x.

(** [c in chars] for a one-character [c]. *)
Definition char_in (c : Z) (chars : str) : bool := existsb (Z.eqb c) chars.

(** Truth value of an [Optional[str]]. *)
Definition truthy (o : option string) : bool :=
  match o with
  | None => false
  | Some m => negb (String.eqb m "")
  end.

End Py.

Import Py.

Notation "x <- m ;; k" := (Py.bind m (fun x => k))
  (at level 61, m at next level, right associativity).

(** ** The optional [langdetect] dependency

    [detect_text] stands for [langdetect.detect]: [Some code] when it returns
    a language code, [None] when it raises [LangDetectException]. *)

Record Runtime : Type := {
  LANGDETECT_AVAILABLE : bool;
  detect_text : str -> option string
}.

(** Computations that may call the library: the texts handed to
    [langdetect.detect], in order, and the outcome. *)
Definition Run (A : Type) : Type := (list str * Res A)%type.

Definition calls {A : Type} (r : Run A) : list str := fst r.
Definition outcome {A : Type} (r : Run A) : Res A := snd r.

Definition ret {A : Type} (a : A) : Run A := ([], Ok a).

Definition lift {A : Type} (m : Res A) : Run A := ([], m).

Definition rbind {A B : Type} (m : Run A) (k : A -> Run B) : Run B :=
  match snd m with
  | Ok a => (fst m ++ fst (k a), snd (k a))
  | Raise e => (fst m, Raise e)
  end.

Notation "x <~ m ;; k" := (rbind m (fun x => k))
  (at level 61, m at next level, right associativity).

(** ** Data model *)

Record LanguageDetectionResult : Type := {
  success : bool;
  language : string;
  confidence : Q;
  method : string;
  text_sample : str;
  char_count : Z;
  error : option string
}.

(** The dictionary returned by [_detect_by_unicode]. *)
Record UnicodeResult : Type := {
  u_language : string;
  u_confidence : Q
}.

(** The dictionary returned by [_detect_by_library]. *)
Record LibraryResult : Type := {
  l_success : bool;
  l_language : string;
  l_confidence : Q
}.

Module LanguageDetector.

Definition URDU_UNICODE_RANGES : list (Z * Z) :=
  [ (0x0600, 0x06FF); (0x0750, 0x077F); (0xFB50, 0xFDFF); (0xFE70, 0xFEFF) ].

Definition URDU_THRESHOLD : Q := 0.30%Q.

(** The punctuation literal of the character loop: full stop, comma,
    exclamation and question marks, semicolon, colon, apostrophe, double
    quote, parentheses, hyphen, square brackets and braces. *)
Definition PUNCTUATION : str :=
  [46; 44; 33; 63; 59; 58; 39; 34; 40; 41; 45; 91; 93; 123; 125].

Record t : Type := { use_fallback : bool }.

Definition __init__ (rt : Runtime) (use_library_fallback : bool) : t :=
  {| use_fallback := use_library_fallback && LANGDETECT_AVAILABLE rt |}.

(** [char.isspace() or char in PUNCTUATION] *)
Definition skipped (char : Z) : bool :=
  isspace char || char_in char PUNCTUATION.

(** The inner loop over the ranges, left at the first match. *)
Fixpoint in_ranges (char_code : Z) (ranges : list (Z * Z)) : bool :=
  match ranges with
  | [] => false
  | (start, stop) :: rest =>
      if (start <=? char_code) && (char_code <=? stop) then true
      else in_ranges char_code rest
  end.

Definition _validate_input (text : value) : option string :=
  match text with
  | VNone => Some "Text cannot be None"%string
  | VInt _ | VList _ => Some "Text must be a string"%string
  | VStr s =>
      if len (strip s) =? 0
      then Some "Text cannot be empty or only whitespace"%string
      else if len (strip s) <? 3
      then Some "Text too short for reliable detection (minimum 3 characters)"%string
      else None
  end.

(** One iteration of the character loop of [_detect_by_unicode], on the
    pair [(total_chars, urdu_chars)]. *)
Definition scan_char (acc : Z * Z) (char : Z) : Z * Z :=
  let '(total_chars, urdu_chars) := acc in
  if skipped char then acc
  else
    let total_chars := total_chars + 1 in
    if in_ranges char URDU_UNICODE_RANGES
    then (total_chars, urdu_chars + 1)
    else (total_chars, urdu_chars).

Definition _detect_by_unicode (text : str) : Res UnicodeResult :=
  let '(total_chars, urdu_chars) := fold_left scan_char text (0, 0) in
  if total_chars =? 0
  then Ok {| u_language := "en"; u_confidence := 50 |}
  else
    ratio <- truediv urdu_chars total_chars ;;
    let urdu_percentage := (ratio * 100)%Q in
    if fgt urdu_percentage (URDU_THRESHOLD * 100)%Q
    then
      let confidence := Py.min (urdu_percentage + 20)%Q 99 in
      Ok {| u_language := "ur"; u_confidence := confidence |}
    else
      let confidence := Py.min ((100 - urdu_percentage) + 20)%Q 99 in
      Ok {| u_language := "en"; u_confidence := confidence |}.

(** The call [detect(text)] into the library, recorded in the log. *)
Definition langdetect_detect (rt : Runtime) (text : str) : Run (option string) :=
  ([text], Ok (detect_text rt text)).

Definition _detect_by_library (rt : Runtime) (text : str) : Run LibraryResult :=
  if negb (LANGDETECT_AVAILABLE rt)
  then ret {| l_success := false; l_language := ""; l_confidence := 0 |}
  else
    detected <~ langdetect_detect rt text ;;
    match detected with
    | Some detected_lang =>
        if String.eqb detected_lang "ur"
        then ret {| l_success := true; l_language := "ur"; l_confidence := 95 |}
        else if String.eqb detected_lang "en"
        then ret {| l_success := true; l_language := "en"; l_confidence := 95 |}
        else ret {| l_success := true; l_language := "en"; l_confidence := 60 |}
    | None =>
        (* except LangDetectException *)
        ret {| l_success := false; l_language := ""; l_confidence := 0 |}
    end.

(** [detect].  Past a passed validation [text] is a [str]; the last branch
    of the match is never taken. *)
Definition detect (rt : Runtime) (self : t) (text : value)
  : Run LanguageDetectionResult :=
  _ <~ lift (getslice text 50) ;;
  let validation_error := _validate_input text in
  if truthy validation_error
  then ret {| success := false; language := ""; confidence := 0;
              method := ""; text_sample := []; char_count := 0;
              error := validation_error |}
  else
    match text with
    | VStr s =>
        unicode_result <~ lift (_detect_by_unicode s) ;;
        if fgt (u_confidence unicode_result) 70
        then ret {| success := true;
                    language := u_language unicode_result;
                    confidence := u_confidence unicode_result;
                    method := "unicode";
                    text_sample := prefix 100 s;
                    char_count := len s;
                    error := None |}
        else
          fallback <~
            (if use_fallback self
             then
               library_result <~ _detect_by_library rt s ;;
               if l_success library_result
               then ret (Some {| success := true;
                                 language := l_language library_result;
                                 confidence := l_confidence library_result;
                                 method := "library";
                                 text_sample := prefix 100 s;
                                 char_count := len s;
                                 error := None |})
               else ret None
             else ret None) ;;
          match fallback with
          | Some result => ret result
          | None =>
              ret {| success := true;
                     language := u_language unicode_result;
                     confidence := u_confidence unicode_result;
                     method := "unicode";
                     text_sample := prefix 100 s;
                     char_count := len s;
                     error := None |}
          end
    | _ => lift (Raise TypeError)
    end.

Definition get_supported_languages : list string := ["en"; "ur"]%string.

Definition is_mixed_language (text : str) (threshold : Q) : Res bool :=
  _ <- _detect_by_unicode text ;;
  let total_chars :=
    fold_left Z.add (map (fun _ => 1) (filter (fun char => negb (skipped char)) text)) 0 in
  if total_chars =? 0 then Ok false
  else
    let urdu_chars :=
      fold_left
        (fun urdu_chars char =>
           if skipped char then urdu_chars
           else if in_ranges char URDU_UNICODE_RANGES then urdu_chars + 1
           else urdu_chars)
        text 0 in
    urdu_percentage <- truediv urdu_chars total_chars ;;
    Ok (fle threshold urdu_percentage && fle urdu_percentage (1 - threshold)%Q).

End LanguageDetector.

(** ** Convenience functions *)

Definition detect_language (rt : Runtime) (text : value)
  : Run LanguageDetectionResult :=
  let detector := LanguageDetector.__init__ rt true in
  LanguageDetector.detect rt detector text.

Definition quick_detect (rt : Runtime) (text : value) : Run string :=
  result <~ detect_language rt text ;;
  ret (if success result then language result else "en"%string).

(** ** Notions used by the specification *)

(** An analyzable character: neither whitespace nor in the punctuation set. *)
Definition analyzable (c : Z) : bool :=
  negb (isspace c) && negb (char_in c LanguageDetector.PUNCTUATION).

(** A target-script character: its code point lies in one of the ranges. *)
Definition target_script (c : Z) : bool :=
  existsb (fun range => (fst range <=? c) && (c <=? snd range))
          LanguageDetector.URDU_UNICODE_RANGES.

Definition analyzable_count (text : str) : Z :=
  Z.of_nat (List.length (filter analyzable text)).

Definition target_count (text : str) : Z :=
  Z.of_nat (List.length (filter (fun c => analyzable c && target_script c) text)).

(** Target-script characters over analyzable characters. *)
Definition script_ratio (text : str) : Q :=
  (inject_Z (target_count text) / inject_Z (analyzable_count text))%Q.

(** The input gets through the Validate stage. *)
Definition passes_validation (text : value) : Prop :=
  LanguageDetector._validate_input text = None.

(** Code points of an ASCII literal, to write the examples. *)
Definition text_of (s : string) : str :=
  map (fun a => Z.of_N (N_of_ascii a)) (list_ascii_of_string s).

(** Salam and dunya, the two words of the greeting used by the tests. *)
Definition salam : str := [0x0633; 0x0644; 0x0627; 0x0645].
Definition dunya : str := [0x062F; 0x0646; 0x06CC; 0x0627].

(** Zindabad, in two words, and the mixed example of the module's own test
    list (eight Latin letters, seven Urdu ones). *)
Definition zinda_bad : str :=
  [0x0632; 0x0646; 0x062F; 0x06C1; 32; 0x0628; 0x0627; 0x062F].
Definition pakistan_zindabad : str := text_of "Pakistan " ++ zinda_bad.

(** Four Latin letters and four Urdu ones: a ratio of exactly one half. *)
Definition test_salam : str := text_of "Test " ++ salam.

(** Ten Latin letters and six Urdu ones (salam, aap): a ratio of 3/8. *)
Definition hello_world_salam_aap : str :=
  text_of "Hello World " ++ salam ++ [32; 0x0622; 0x067E].

(** The mixed example of the docstring of [is_mixed_language]. *)
Definition hello_salam_world : str :=
  text_of "Hello " ++ salam ++ text_of " World".

(** A runtime without [langdetect], and one whose detector answers with the
    given code whatever the text. *)
Definition no_langdetect : Runtime :=
  {| LANGDETECT_AVAILABLE := false; detect_text := fun _ => None |}.

Definition langdetect_saying (code : string) : Runtime :=
  {| LANGDETECT_AVAILABLE := true; detect_text := fun _ => Some code |}.

(** The result built from the script analysis (steps 2 and 4 of [detect]). *)
Definition unicode_accepted (u : UnicodeResult) (s : str)
  : LanguageDetectionResult :=
  {| success := true;
     language := u_language u;
     confidence := u_confidence u;
     method := "unicode";
     text_sample := prefix 100 s;
     char_count := len s;
     error := None |}.

(** The result built from a successful library answer (step 3). *)
Definition library_accepted (l : LibraryResult) (s : str)
  : LanguageDetectionResult :=
  {| success := true;
     language := l_language l;
     confidence := l_confidence l;
     method := "library";
     text_sample := prefix 100 s;
     char_count := len s;
     error := None |}.


(** ** The arithmetic on IEEE binary64 numbers

    The same functions on primitive binary64 floats: first the arithmetic
    of [_detect_by_unicode] after its loop and the last two lines of
    [is_mixed_language], on the two counts, then the two functions on a
    text.  Most statements below are about the rational model and are
    checked here on the example inputs; the statement about the ends of
    the interval of [is_mixed_language] is about these definitions. *)

Module Binary64.

Import PrimFloat.

(** The conversion of a character count by the true division. *)
Definition of_int (n : Z) : float := of_uint63 (Uint63.of_Z n).

(** The literal [0.30], as the closest binary64 number. *)
Definition URDU_THRESHOLD : float := 0x1.3333333333333p-2%float.

(** The literal [0.20], the default [threshold]. *)
Definition default_threshold : float := 0x1.999999999999ap-3%float.

Definition min (x y : float) : float := if ltb y x then y else x.

(** The branch of [_detect_by_unicode] taken when [total_chars] is not 0. *)
Definition classify (urdu_chars total_chars : Z) : string * float :=
  let urdu_percentage := ((of_int urdu_chars / of_int total_chars) * 100)%float in
  if ltb (URDU_THRESHOLD * 100)%float urdu_percentage
  then ("ur"%string, min (urdu_percentage + 20)%float 99%float)
  else ("en"%string, min ((100 - urdu_percentage) + 20)%float 99%float).

(** The test [confidence > 70] of [detect]. *)
Definition confident (confidence : float) : bool := ltb 70%float confidence.

(** The last two lines of [is_mixed_language]. *)
Definition mixed (urdu_chars total_chars : Z) (threshold : float) : bool :=
  let urdu_percentage := (of_int urdu_chars / of_int total_chars)%float in
  leb threshold urdu_percentage && leb urdu_percentage (1 - threshold)%float.

(** [a / b] on two [int]s.  Two counts below 2^53 convert exactly, and the
    binary64 quotient of the conversions is then the correctly rounded
    quotient that Python returns. *)
Definition truediv (a b : Z) : Res float :=
  if b =? 0 then Raise ZeroDivisionError
  else Ok (of_int a / of_int b)%float.

(** [_detect_by_unicode], with the dictionary as a pair. *)
Definition _detect_by_unicode (text : str) : Res (string * float) :=
  let '(total_chars, urdu_chars) :=
    fold_left LanguageDetector.scan_char text (0, 0) in
  if total_chars =? 0
  then Ok ("en"%string, 50%float)
  else
    ratio <- truediv urdu_chars total_chars ;;
    let urdu_percentage := (ratio * 100)%float in
    if ltb (URDU_THRESHOLD * 100)%float urdu_percentage
    then
      let confidence := min (urdu_percentage + 20)%float 99%float in
      Ok ("ur"%string, confidence)
    else
      let confidence := min ((100 - urdu_percentage) + 20)%float 99%float in
      Ok ("en"%string, confidence).

Definition is_mixed_language (text : str) (threshold : float) : Res bool :=
  _ <- _detect_by_unicode text ;;
  let total_chars :=
    fold_left Z.add
      (map (fun _ => 1)
           (filter (fun char => negb (LanguageDetector.skipped char)) text)) 0 in
  if total_chars =? 0 then Ok false
  else
    let urdu_chars :=
      fold_left
        (fun urdu_chars char =>
           if LanguageDetector.skipped char then urdu_chars
           else if LanguageDetector.in_ranges char
                     LanguageDetector.URDU_UNICODE_RANGES
           then urdu_chars + 1
           else urdu_chars)
        text 0 in
    urdu_percentage <- truediv urdu_chars total_chars ;;
    Ok (leb threshold urdu_percentage
        && leb urdu_percentage (1 - threshold)%float).

(** The quotient of the two counts, rounded to binary64. *)
Definition script_ratio (text : str) : float :=
  (of_int (target_count text) / of_int (analyzable_count text))%float.

(** The rational that a finite binary64 number stands for. *)
Definition to_Q (x : float) : option Q :=
  match FloatOps.Prim2SF x with
  | SpecFloat.S754_zero _ => Some 0%Q
  | SpecFloat.S754_finite negative mantissa exponent =>
      let magnitude :=
        if 0 <=? exponent
        then inject_Z (Zpos mantissa * 2 ^ exponent)
        else (Zpos mantissa # Z.to_pos (2 ^ (- exponent))) in
      Some (if negative then - magnitude else magnitude)%Q
  | _ => None
  end.

(** The literal [0.32], as the closest binary64 number. *)
Definition literal_0_32 : float := 0x1.47ae147ae147bp-2%float.

End Binary64.

(** Seventeen Urdu characters with eight Latin ones, and eight with
    seventeen: ratios of 0.68 and 0.32. *)
Definition urdu_17_of_25 : str := repeat 0x0627 17 ++ text_of "abcdefgh".
Definition urdu_8_of_25 : str := repeat 0x0627 8 ++ text_of "abcdefghijklmnopq".

(** ** Notions used by the further properties *)

(** The failed result built by [detect] for a validation message. *)
Definition rejected (msg : string) : LanguageDetectionResult :=
  {| success := false; language := ""; confidence := 0;
     method := ""; text_sample := []; char_count := 0;
     error := Some msg |}.

(** What [_detect_by_library] answers for a code reported by the library. *)
Definition library_answer (code : string) : LibraryResult :=
  if String.eqb code "ur"
  then {| l_success := true; l_language := "ur"; l_confidence := 95 |}
  else if String.eqb code "en"
  then {| l_success := true; l_language := "en"; l_confidence := 95 |}
  else {| l_success := true; l_language := "en"; l_confidence := 60 |}.

(** The script analysis is below the acceptance bar of [detect]: there is
    no analyzable character, or the ratio is above 30% and at most 50%. *)
Definition inconclusive (text : str) : Prop :=
  analyzable_count text = 0
  \/ (3 # 10 < script_ratio text /\ script_ratio text <= 1 # 2)%Q.

(** A text made of whitespace only. *)
Definition blank (text : str) : Prop := Forall (fun c => isspace c = true) text.

(** ** Text input handler (modules/text_input.py)

    The module that prepares the text handed to the detector.  Two parts of
    the Python runtime enter it as parameters: [ftfy.fix_text], which
    returns a string or raises, and the Unicode table behind the word
    class of regular expressions ([str.isalnum]). *)

Record TextRuntime : Type := {
  ftfy_fix_text : str -> option str;
  isalnum : Z -> bool
}.

Module TextInputHandler.

Record TextInputResult : Type := {
  success : bool;
  text : str;
  original_text : value;
  char_count : Z;
  word_count : Z;
  error : option string
}.

Definition MIN_TEXT_LENGTH : Z := 1.
Definition MAX_TEXT_LENGTH : Z := 10000.

(** [type(text).__name__] *)
Definition type_name (v : value) : string :=
  match v with
  | VNone => "NoneType"
  | VInt _ => "int"
  | VList _ => "list"
  | VStr _ => "str"
  end.

(** An [int] inside an f-string. *)
Definition format_int (n : Z) : string := NilZero.string_of_int (Z.to_int n).

(** [text.replace(old, new)] for one-character [old] and [new]. *)
Definition replace (old new : Z) (s : str) : str :=
  map (fun c => if c =? old then new else c) s.

(** [re.sub(r' +', ' ', text)]: every run of spaces becomes one space (a
    space followed by a space is dropped). *)
Fixpoint sub_spaces (s : str) : str :=
  match s with
  | [] => []
  | c :: rest =>
      if c =? 32
      then match rest with
           | next :: _ => if next =? 32 then sub_spaces rest
                          else 32 :: sub_spaces rest
           | [] => [32]
           end
      else c :: sub_spaces rest
  end.

(** [text.split()]: the maximal runs of characters that are not
    whitespace; [word] holds the current run, last character first. *)
Fixpoint split_from (word : str) (s : str) : list str :=
  match s with
  | [] => match word with [] => [] | _ => [rev word] end
  | c :: rest =>
      if isspace c
      then match word with
           | [] => split_from [] rest
           | _ => rev word :: split_from [] rest
           end
      else split_from (c :: word) rest
  end.

Definition split (s : str) : list str := split_from [] s.

Definition _validate_input (text : value) : option string :=
  match text with
  | VNone => Some "Text cannot be None"%string
  | VInt _ | VList _ =>
      Some ("Text must be a string, got " ++ type_name text)%string
  | VStr s =>
      if len (strip s) =? 0
      then Some "Text cannot be empty or whitespace only"%string
      else if len s >? MAX_TEXT_LENGTH
      then Some ("Text too long (" ++ format_int (len s)
                 ++ " chars). Maximum is " ++ format_int MAX_TEXT_LENGTH
                 ++ " characters")%string
      else None
  end.

Definition _validate_processed_text (text : str) : option string :=
  if len text <? MIN_TEXT_LENGTH
  then Some "Text too short after cleaning (minimum 1 character)"%string
  else None.

(** [ftfy.fix_text], with the original text when it raises. *)
Definition _fix_encoding (rt : TextRuntime) (text : str) : str :=
  match ftfy_fix_text rt text with
  | Some fixed_text => fixed_text
  | None => text
  end.

Definition _normalize_whitespace (text : str) : str :=
  let text := replace 9 32 (replace 13 32 (replace 10 32 text)) in
  let text := sub_spaces text in
  strip text.

(** The punctuation kept by the pattern of [_clean_text]: full stop,
    comma, exclamation and question marks, apostrophe, double quote,
    hyphen, colon and semicolon. *)
Definition KEPT_PUNCTUATION : str := [46; 44; 33; 63; 39; 34; 45; 58; 59].

(** The word class of the pattern: alphanumeric, or the underscore. *)
Definition word_char (rt : TextRuntime) (c : Z) : bool :=
  isalnum rt c || (c =? 95).

(** A character outside the negated class of the pattern, which the
    substitution therefore keeps. *)
Definition kept (rt : TextRuntime) (c : Z) : bool :=
  word_char rt c
  || isspace c
  || char_in c KEPT_PUNCTUATION
  || ((0x0600 <=? c) && (c <=? 0x06FF))
  || ((0x0750 <=? c) && (c <=? 0x077F))
  || ((0xFB50 <=? c) && (c <=? 0xFDFF))
  || ((0xFE70 <=? c) && (c <=? 0xFEFF)).

Definition _clean_text (rt : TextRuntime) (text : str) : str :=
  let cleaned := filter (kept rt) text in
  let cleaned := sub_spaces cleaned in
  strip cleaned.

Definition _count_words (text : str) : Z :=
  let words := filter (fun word => negb (len (strip word) =? 0)) (split text) in
  Z.of_nat (List.length words).

Definition _create_error_result (original_text : value) (error : string)
  : TextInputResult :=
  {| success := false;
     text := [];
     original_text := original_text;
     char_count := 0;
     word_count := 0;
     error := Some error |}.

(** [process].  Nothing raises inside its [try]: the handler of
    [Exception], for which the last branch of the inner match stands, is
    never reached. *)
Definition process (rt : TextRuntime) (text : value) : TextInputResult :=
  let original_text := text in
  let validation_error := _validate_input text in
  match (if truthy validation_error then validation_error else None) with
  | Some validation_error =>
      _create_error_result original_text validation_error
  | None =>
      match text with
      | VStr s =>
          let text := _fix_encoding rt s in
          let text := _normalize_whitespace text in
          let text := _clean_text rt text in
          let final_validation_error := _validate_processed_text text in
          match (if truthy final_validation_error
                 then final_validation_error else None) with
          | Some final_validation_error =>
              _create_error_result original_text final_validation_error
          | None =>
              {| success := true;
                 text := text;
                 original_text := original_text;
                 char_count := len text;
                 word_count := _count_words text;
                 error := None |}
          end
      | _ => _create_error_result original_text "Processing error"
      end
  end.

Definition validate_only (text : value) : bool * option string :=
  let error := _validate_input text in
  (match error with None => true | Some _ => false end, error).

End TextInputHandler.

(** The convenience function of the module. *)
Definition process_text (rt : TextRuntime) (text : value)
  : TextInputHandler.TextInputResult :=
  TextInputHandler.process rt text.

(** A runtime for the examples: [ftfy] leaves the text as it is, and the
    alphanumeric characters are the ASCII letters and digits. *)
Definition plain_text_runtime : TextRuntime :=
  {| ftfy_fix_text := fun s => Some s;
     isalnum := fun c =>
       ((48 <=? c) && (c <=? 57))
       || ((65 <=? c) && (c <=? 90))
       || ((97 <=? c) && (c <=? 122)) |}.

(** No two spaces in a row. *)
Fixpoint single_spaced (s : str) : Prop :=
  match s with
  | [] => True
  | c :: rest =>
      match rest with
      | next :: _ => ~ (c = 32 /\ next = 32)
      | [] => True
      end /\ single_spaced rest
  end.

(** A text that [strip] leaves as it is. *)
Definition stripped (s : str) : Prop := strip s = s.

(** The number of places where a word begins: a character that is not
    whitespace, at the start of the text or after whitespace. *)
Fixpoint word_starts (after_space : bool) (s : str) : nat :=
  match s with
  | [] => 0
  | c :: rest =>
      if isspace c then word_starts true rest
      else ((if after_space then 1 else 0) + word_starts false rest)%nat
  end.

(** Closed facts about literals are settled by evaluation. *)
Ltac by_evaluation := vm_compute; first [reflexivity | discriminate].

(** * Properties *)

Import LanguageDetector.

(** ** The float operations *)

Section FloatOps.

Lemma fgt_true (x y : Q) : fgt x y = true <-> (y < x)%Q.
Proof.
  unfold fgt. rewrite negb_true_iff, <- not_true_iff_false, Qle_bool_iff.
  split; [apply Qnot_le_lt | apply Qlt_not_le].
Qed.

Lemma fgt_false (x y : Q) : fgt x y = false <-> (x <= y)%Q.
Proof.
  unfold fgt. rewrite negb_false_iff. apply Qle_bool_iff.
Qed.

Lemma fle_true (x y : Q) : fle x y = true <-> (x <= y)%Q.
Proof. apply Qle_bool_iff. Qed.

Lemma min_cases (x y : Q) :
  ((x <= y)%Q /\ Py.min x y = x) \/ ((y < x)%Q /\ Py.min x y = y).
Proof.
  unfold Py.min. destruct (fgt x y) eqn:E.
  - right. split; [now apply fgt_true | reflexivity].
  - left. split; [now apply fgt_false | reflexivity].
Qed.

Lemma truediv_ok (a b : Z) :
  b <> 0 -> truediv a b = Ok (inject_Z a / inject_Z b)%Q.
Proof.
  intros Hb. unfold truediv. now apply Z.eqb_neq in Hb as ->.
Qed.

End FloatOps.

(** ** The character loop computes the two counts *)

Section Counting.

Lemma analyzable_skipped (c : Z) : analyzable c = negb (skipped c).
Proof. unfold analyzable, skipped. now rewrite negb_orb. Qed.

Lemma in_ranges_target (c : Z) :
  in_ranges c URDU_UNICODE_RANGES = target_script c.
Proof.
  unfold target_script.
  induction URDU_UNICODE_RANGES as [|[start stop] rest IH]; simpl.
  - reflexivity.
  - rewrite IH. now destruct ((start <=? c) && (c <=? stop)).
Qed.

Lemma scan_fold (text : str) (total_chars urdu_chars : Z) :
  fold_left scan_char text (total_chars, urdu_chars)
  = (total_chars + analyzable_count text, urdu_chars + target_count text).
Proof.
  unfold analyzable_count, target_count.
  revert total_chars urdu_chars.
  induction text as [|c text IH]; intros total_chars urdu_chars.
  - simpl. now rewrite !Z.add_0_r.
  - cbn [fold_left filter]. unfold scan_char at 2.
    rewrite analyzable_skipped, in_ranges_target.
    destruct (skipped c); cbn [negb andb].
    + apply IH.
    + destruct (target_script c); rewrite IH; cbn [List.length]; f_equal; lia.
Qed.

Lemma counts_bounds (text : str) :
  0 <= target_count text <= analyzable_count text.
Proof.
  unfold analyzable_count, target_count.
  induction text as [|c text IH]; simpl; [lia|].
  destruct (analyzable c); simpl; [|lia].
  destruct (target_script c); simpl; lia.
Qed.

(** The generator expression of [is_mixed_language]. *)
Lemma sum_ones (text : str) :
  fold_left Z.add
    (map (fun _ => 1) (filter (fun char => negb (skipped char)) text)) 0
  = analyzable_count text.
Proof.
  unfold analyzable_count.
  rewrite (filter_ext _ analyzable) by (intros; now rewrite analyzable_skipped).
  generalize (filter analyzable text) as l.
  assert (H : forall (l : list Z) (acc : Z),
             fold_left Z.add (map (fun _ => 1) l) acc
             = acc + Z.of_nat (List.length l)).
  { induction l as [|c l IH]; intros acc; cbn [map fold_left List.length].
    - lia.
    - rewrite IH. lia. }
  intros l. now rewrite H.
Qed.

(** The second loop of [is_mixed_language]. *)
Lemma urdu_fold (text : str) (urdu_chars : Z) :
  fold_left
    (fun urdu_chars char =>
       if skipped char then urdu_chars
       else if in_ranges char URDU_UNICODE_RANGES then urdu_chars + 1
       else urdu_chars)
    text urdu_chars
  = urdu_chars + target_count text.
Proof.
  unfold target_count. revert urdu_chars.
  induction text as [|c text IH]; intros urdu_chars; cbn [fold_left filter].
  - simpl. lia.
  - rewrite IH, analyzable_skipped, in_ranges_target.
    destruct (skipped c); cbn [negb andb]; [reflexivity|].
    destruct (target_script c); cbn [List.length]; lia.
Qed.

Lemma ratio_bounds (text : str) :
  0 < analyzable_count text -> (0 <= script_ratio text <= 1)%Q.
Proof.
  intros Hpos. pose proof (counts_bounds text) as [Hlo Hhi].
  unfold script_ratio.
  assert (Hq : (0 < inject_Z (analyzable_count text))%Q)
    by (rewrite <- (Zlt_Qlt 0); exact Hpos).
  split.
  - apply Qle_shift_div_l; [exact Hq|]. rewrite Qmult_0_l.
    rewrite <- (Zle_Qle 0). exact Hlo.
  - apply Qle_shift_div_r; [exact Hq|]. rewrite Qmult_1_l.
    rewrite <- Zle_Qle. exact Hhi.
Qed.

(** With no analyzable character the quotient is not formed; the
    rational [script_ratio] is then 0. *)
Lemma ratio_positive_count (text : str) :
  (0 < script_ratio text)%Q -> 0 < analyzable_count text.
Proof.
  intros Hr. pose proof (counts_bounds text) as [Hlo Hhi].
  destruct (Z.eq_dec (analyzable_count text) 0) as [E|E]; [|lia].
  exfalso. unfold script_ratio in Hr.
  replace (target_count text) with 0 in Hr by lia.
  rewrite E in Hr. vm_compute in Hr. discriminate.
Qed.

End Counting.

(** ** The script classifier *)

Section Classifier.

Lemma detect_by_unicode_empty (text : str) :
  analyzable_count text = 0 ->
  _detect_by_unicode text = Ok {| u_language := "en"; u_confidence := 50 |}.
Proof.
  intros H0. unfold _detect_by_unicode.
  rewrite scan_fold, !Z.add_0_l, H0. reflexivity.
Qed.

Lemma detect_by_unicode_counts (text : str) :
  0 < analyzable_count text ->
  _detect_by_unicode text =
    if fgt (script_ratio text * 100)%Q (URDU_THRESHOLD * 100)%Q
    then Ok {| u_language := "ur";
               u_confidence := Py.min (script_ratio text * 100 + 20)%Q 99 |}
    else Ok {| u_language := "en";
               u_confidence := Py.min (100 - script_ratio text * 100 + 20)%Q 99 |}.
Proof.
  intros Hpos. unfold _detect_by_unicode.
  rewrite scan_fold, !Z.add_0_l.
  assert (Hne : analyzable_count text <> 0) by lia.
  apply Z.eqb_neq in Hne as E. rewrite E.
  rewrite truediv_ok by exact Hne. reflexivity.
Qed.

Lemma detect_by_unicode_total (text : str) :
  exists u, _detect_by_unicode text = Ok u.
Proof.
  pose proof (counts_bounds text) as [Hlo Hhi].
  destruct (Z.eq_dec (analyzable_count text) 0) as [E|E].
  - eexists. now apply detect_by_unicode_empty.
  - rewrite detect_by_unicode_counts by lia.
    destruct (fgt _ _); eexists; reflexivity.
Qed.

Lemma unicode_ur (text : str) :
  (3 # 10 < script_ratio text)%Q ->
  _detect_by_unicode text =
    Ok {| u_language := "ur";
          u_confidence := Py.min (script_ratio text * 100 + 20)%Q 99 |}.
Proof.
  intros Hr.
  assert (Hpos : 0 < analyzable_count text)
    by (apply ratio_positive_count; lra).
  rewrite detect_by_unicode_counts by exact Hpos.
  assert (G : fgt (script_ratio text * 100)%Q (URDU_THRESHOLD * 100)%Q = true)
    by (apply fgt_true; unfold URDU_THRESHOLD; lra).
  now rewrite G.
Qed.

Lemma unicode_en (text : str) :
  0 < analyzable_count text ->
  (script_ratio text <= 3 # 10)%Q ->
  _detect_by_unicode text =
    Ok {| u_language := "en";
          u_confidence := Py.min (100 - script_ratio text * 100 + 20)%Q 99 |}.
Proof.
  intros Hpos Hr.
  rewrite detect_by_unicode_counts by exact Hpos.
  assert (G : fgt (script_ratio text * 100)%Q (URDU_THRESHOLD * 100)%Q = false)
    by (apply fgt_false; unfold URDU_THRESHOLD; lra).
  now rewrite G.
Qed.

End Classifier.

(** ** The orchestrator *)

Section Orchestrator.

Variable rt : Runtime.
Variable self : LanguageDetector.t.

Lemma passes_validation_str (text : value) :
  passes_validation text ->
  exists s, text = VStr s /\ 3 <= len (strip s).
Proof.
  unfold passes_validation.
  destruct text as [| n | items | s]; simpl; try discriminate.
  destruct (len (strip s) =? 0) eqn:E0; [discriminate|].
  destruct (len (strip s) <? 3) eqn:E3; [discriminate|].
  intros _. exists s. split; [reflexivity|].
  apply Z.ltb_ge. exact E3.
Qed.

(** [_detect_by_library] always answers, with one call to the library when
    it is available and none otherwise; a successful answer carries one of
    the two supported codes, [ur] only when the library said [ur]. *)
Lemma detect_by_library_cases (s : str) :
  exists l,
    _detect_by_library rt s
    = ((if LANGDETECT_AVAILABLE rt then [s] else []), Ok l)
    /\ (l_success l = true ->
        l_language l = "en"%string \/ l_language l = "ur"%string)
    /\ (l_success l = true <->
        LANGDETECT_AVAILABLE rt = true /\ detect_text rt s <> None)
    /\ (detect_text rt s = Some "ur"%string -> l_success l = true ->
        l_language l = "ur"%string)
    /\ (forall code, detect_text rt s = Some code -> code <> "ur"%string ->
        l_success l = true -> l_language l = "en"%string).
Proof.
  unfold _detect_by_library, langdetect_detect.
  destruct (LANGDETECT_AVAILABLE rt); cbn [negb rbind fst snd].
  - destruct (detect_text rt s) as [code|] eqn:D.
    + destruct (String.eqb code "ur") eqn:Eur;
        [|destruct (String.eqb code "en") eqn:Een];
        eexists; (split; [reflexivity|]); cbn;
        (repeat split; auto; try discriminate; try tauto).
      * intros code' [= <-] Hne. apply String.eqb_eq in Eur. contradiction.
      * intros [= ->]. discriminate.
      * intros [= ->]. discriminate.
    + eexists; (split; [reflexivity|]); cbn.
      repeat split; auto; try discriminate; tauto.
  - eexists; (split; [reflexivity|]); cbn.
    repeat split; auto; try discriminate. intros [? _]. discriminate.
Qed.

(** Past validation, [detect] is the three-way choice of steps 2 to 4. *)
Lemma detect_valid (s : str) (u : UnicodeResult) :
  passes_validation (VStr s) ->
  _detect_by_unicode s = Ok u ->
  detect rt self (VStr s) =
    if fgt (u_confidence u) 70 then ret (unicode_accepted u s)
    else
      fallback <~
        (if use_fallback self
         then
           library_result <~ _detect_by_library rt s ;;
           if l_success library_result
           then ret (Some (library_accepted library_result s))
           else ret None
         else ret None) ;;
      match fallback with
      | Some result => ret result
      | None => ret (unicode_accepted u s)
      end.
Proof.
  intros Hv Hu. unfold passes_validation in Hv.
  unfold detect. cbn [getslice lift rbind fst snd app].
  rewrite Hv, Hu. cbn [truthy lift rbind fst snd app].
  rewrite <- surjective_pairing. reflexivity.
Qed.

Lemma detect_confident (s : str) (u : UnicodeResult) :
  passes_validation (VStr s) ->
  _detect_by_unicode s = Ok u ->
  (70 < u_confidence u)%Q ->
  detect rt self (VStr s) = ([], Ok (unicode_accepted u s)).
Proof.
  intros Hv Hu Hc. rewrite (detect_valid s u Hv Hu).
  apply fgt_true in Hc. now rewrite Hc.
Qed.

(** The language of a successful result is one of the supported ones. *)
Lemma supported_language (code : string) :
  code = "en"%string \/ code = "ur"%string <-> In code get_supported_languages.
Proof.
  unfold get_supported_languages. cbn [In]. split.
  - intros [->| ->]; auto.
  - intros [<-|[<-|[]]]; auto.
Qed.

(** Below the acceptance bar the result is the library's when the fallback
    is enabled and succeeds, the script analysis otherwise. *)
Lemma detect_unsure (s : str) (u : UnicodeResult) :
  passes_validation (VStr s) ->
  _detect_by_unicode s = Ok u ->
  (u_confidence u <= 70)%Q ->
  (exists l, outcome (detect rt self (VStr s)) = Ok (library_accepted l s)
             /\ use_fallback self = true
             /\ outcome (_detect_by_library rt s) = Ok l
             /\ l_success l = true)
  \/ (outcome (detect rt self (VStr s)) = Ok (unicode_accepted u s)
      /\ (use_fallback self = false
          \/ exists l, outcome (_detect_by_library rt s) = Ok l
                       /\ l_success l = false)).
Proof.
  intros Hv Hu Hc. rewrite (detect_valid s u Hv Hu).
  apply fgt_false in Hc. rewrite Hc.
  destruct (use_fallback self).
  - destruct (detect_by_library_cases s) as (l & El & _).
    rewrite El. unfold outcome. cbn [rbind fst snd].
    destruct (l_success l) eqn:Sl; cbn [ret rbind fst snd].
    + left. exists l. auto.
    + right. split; [reflexivity|]. right. exists l. auto.
  - right. cbn. auto.
Qed.

Lemma detect_valid_returns (s : str) :
  passes_validation (VStr s) ->
  exists r, outcome (detect rt self (VStr s)) = Ok r
            /\ success r = true /\ error r = None
            /\ (language r = "en"%string \/ language r = "ur"%string).
Proof.
  intros Hv. destruct (detect_by_unicode_total s) as [u Hu].
  assert (Lu : u_language u = "en"%string \/ u_language u = "ur"%string).
  { destruct (Z.eq_dec (analyzable_count s) 0) as [E|E].
    - rewrite detect_by_unicode_empty in Hu by exact E.
      injection Hu as <-. now left.
    - pose proof (counts_bounds s) as [_ _].
      rewrite detect_by_unicode_counts in Hu
        by (pose proof (counts_bounds s); lia).
      destruct (fgt _ _); injection Hu as <-; [now right | now left]. }
  destruct (Qlt_le_dec 70 (u_confidence u)) as [Hc|Hc].
  - rewrite (detect_confident s u Hv Hu Hc). eexists. cbn. auto.
  - destruct (detect_unsure s u Hv Hu Hc) as [(l & -> & _ & El & Sl)|[-> _]].
    + eexists. cbn. repeat split; auto.
      destruct (detect_by_library_cases s) as (l' & El' & Hl & _).
      rewrite El' in El. unfold outcome in El. cbn in El.
      injection El as ->. auto.
    + eexists. cbn. auto.
Qed.

End Orchestrator.

(** ** Example inputs *)

Lemma pakistan_zindabad_counts :
  analyzable_count pakistan_zindabad = 15 /\ target_count pakistan_zindabad = 7.
Proof. split; reflexivity. Qed.

Lemma test_salam_counts :
  analyzable_count test_salam = 8 /\ target_count test_salam = 4.
Proof. split; reflexivity. Qed.

Lemma hello_salam_world_counts :
  analyzable_count hello_salam_world = 14 /\ target_count hello_salam_world = 4.
Proof. split; reflexivity. Qed.

Lemma hello_world_unicode :
  _detect_by_unicode (text_of "Hello World")
  = Ok {| u_language := "en"; u_confidence := 99 |}.
Proof. reflexivity. Qed.

Lemma salam_dunya_unicode :
  _detect_by_unicode (salam ++ 32 :: dunya)
  = Ok {| u_language := "ur"; u_confidence := 99 |}.
Proof. reflexivity. Qed.

Lemma digits_unicode :
  _detect_by_unicode (text_of "123 456 789")
  = Ok {| u_language := "en"; u_confidence := 99 |}.
Proof. reflexivity. Qed.

(** ** Claims about [detect] *)

Section DetectClaims.

Variable rt : Runtime.
Variable self : LanguageDetector.t.

(** C2.  For every input that passes validation, [detect] returns a result
    whose [success] is [true]: past the Validate stage nothing raises and
    no failed result is built, whatever the confidence. *)
Theorem detect_succeeds_after_validation (text : value) :
  passes_validation text ->
  exists r, outcome (detect rt self text) = Ok r /\ success r = true.
Proof.
  intros Hv. destruct (passes_validation_str text Hv) as (s & -> & _).
  destruct (detect_valid_returns rt self s Hv) as (r & Hr & Hs & _).
  exists r. auto.
Qed.

(** C4.  Every [LanguageDetectionResult] that [detect] returns satisfies:
    when [success] is [false] the language is the empty string and the
    confidence is 0; and [error] is present exactly when [success] is
    [false]. *)
Theorem detect_result_invariant (text : value) (r : LanguageDetectionResult) :
  outcome (detect rt self text) = Ok r ->
  (success r = false -> language r = ""%string /\ confidence r = 0%Q)
  /\ (error r <> None <-> success r = false).
Proof.
  intros Hr.
  destruct (LanguageDetector._validate_input text) as [msg|] eqn:Hval.
  - assert (Hfail : outcome (detect rt self text) =
                    Ok {| success := false; language := ""; confidence := 0;
                          method := ""; text_sample := []; char_count := 0;
                          error := Some msg |}).
    { destruct text as [| n | items | s]; try discriminate Hr.
      - cbn in Hval. injection Hval as <-. reflexivity.
      - assert (T : truthy (Some msg) = true).
        { cbn in Hval.
          destruct (len (strip s) =? 0); [injection Hval as <-; reflexivity|].
          destruct (len (strip s) <? 3); [injection Hval as <-; reflexivity|].
          discriminate. }
        unfold detect, outcome. cbn [getslice lift rbind fst snd].
        rewrite Hval, T. reflexivity. }
    rewrite Hfail in Hr. injection Hr as <-. cbn.
    repeat split; auto. discriminate.
  - destruct (passes_validation_str text Hval) as (s & -> & _).
    destruct (detect_valid_returns rt self s Hval) as (r' & Hr' & Hs & He & _).
    rewrite Hr' in Hr. injection Hr as <-.
    rewrite Hs, He. repeat split; try discriminate; congruence.
Qed.

(** C5.  For every input that passes validation and has at least one
    analyzable character, a target-script ratio of at most 30% makes
    [detect] return the language [en]. *)
Theorem ratio_below_threshold_en (s : str) :
  passes_validation (VStr s) ->
  0 < analyzable_count s ->
  (script_ratio s <= 3 # 10)%Q ->
  exists r, outcome (detect rt self (VStr s)) = Ok r
            /\ language r = "en"%string.
Proof.
  intros Hv Hpos Hr.
  pose proof (unicode_en s Hpos Hr) as Hu.
  pose proof (ratio_bounds s Hpos) as [R0 R1].
  rewrite (detect_confident rt self s _ Hv Hu).
  - eexists. split; reflexivity.
  - cbn [u_confidence].
    destruct (min_cases (100 - script_ratio s * 100 + 20) 99) as [[Hm ->]|[Hm ->]];
      lra.
Qed.


(** C1, amended.  For every input that passes validation and whose
    target-script ratio is above 30%, [detect] returns the language [ur]
    when the ratio is above 50% (script confidence above 70), or the
    fallback is disabled or unavailable, or the library raises, or the
    library itself reports [ur]; with a ratio of at most 50% and an enabled
    fallback that reports another code, the language returned is [en]. *)
Theorem ratio_above_threshold_ur (s : str) :
  passes_validation (VStr s) ->
  (3 # 10 < script_ratio s)%Q ->
  ((1 # 2 < script_ratio s)%Q
   \/ use_fallback self = false
   \/ LANGDETECT_AVAILABLE rt = false
   \/ detect_text rt s = None
   \/ detect_text rt s = Some "ur"%string ->
   exists r, outcome (detect rt self (VStr s)) = Ok r
             /\ language r = "ur"%string)
  /\ (forall code,
        (script_ratio s <= 1 # 2)%Q ->
        use_fallback self = true ->
        LANGDETECT_AVAILABLE rt = true ->
        detect_text rt s = Some code ->
        code <> "ur"%string ->
        exists r, outcome (detect rt self (VStr s)) = Ok r
                  /\ language r = "en"%string
                  /\ method r = "library"%string).
Proof.
  intros Hv Hr.
  pose proof (unicode_ur s Hr) as Hu.
  set (u := {| u_language := "ur";
               u_confidence := Py.min (script_ratio s * 100 + 20) 99 |}) in *.
  destruct (detect_by_library_cases rt s) as (l & El & Hl & Hsucc & Hur & Hen).
  assert (Eo : outcome (_detect_by_library rt s) = Ok l)
    by (now rewrite El).
  split.
  - intros Hcase.
    destruct (Qlt_le_dec (1 # 2) (script_ratio s)) as [Hhalf|Hhalf].
    + rewrite (detect_confident rt self s u Hv Hu).
      * eexists. split; reflexivity.
      * subst u. cbn [u_confidence].
        destruct (min_cases (script_ratio s * 100 + 20) 99) as [[Hm ->]|[Hm ->]];
          lra.
    + assert (Hc : (u_confidence u <= 70)%Q).
      { subst u. cbn [u_confidence].
        destruct (min_cases (script_ratio s * 100 + 20) 99) as [[Hm ->]|[Hm ->]];
          lra. }
      destruct (detect_unsure rt self s u Hv Hu Hc)
        as [(l' & -> & Huse & El' & Sl)|[-> _]].
      * rewrite Eo in El'. injection El' as <-.
        apply Hsucc in Sl as Hav. destruct Hav as [Hav Hdet].
        exists (library_accepted l s). split; [reflexivity|]. cbn.
        destruct Hcase as [H|[H|[H|[H|H]]]];
          [lra | congruence | congruence | congruence | auto].
      * exists (unicode_accepted u s). split; reflexivity.
  - intros code Hhalf Huse Hav Hdet Hcode.
    assert (Hc : (u_confidence u <= 70)%Q).
    { subst u. cbn [u_confidence].
      destruct (min_cases (script_ratio s * 100 + 20) 99) as [[Hm ->]|[Hm ->]];
        lra. }
    assert (Sl : l_success l = true)
      by (apply Hsucc; split; [exact Hav | congruence]).
    assert (Len : l_language l = "en"%string)
      by (apply (Hen code); assumption).
    destruct (detect_unsure rt self s u Hv Hu Hc)
      as [(l' & -> & _ & El' & _)|[_ [Hoff|(l' & El' & Sl')]]].
    + rewrite Eo in El'. injection El' as <-.
      exists (library_accepted l s). cbn. auto.
    + congruence.
    + rewrite Eo in El'. injection El' as <-. congruence.
Qed.

End DetectClaims.

Lemma detect_succeeds_after_validation_witness :
  passes_validation (VStr (text_of "Hi!"))
  /\ exists r,
       outcome (detect no_langdetect (__init__ no_langdetect true)
                       (VStr (text_of "Hi!"))) = Ok r
       /\ success r = true.
Proof.
  split; [reflexivity|].
  apply detect_succeeds_after_validation. reflexivity.
Defined.

Lemma detect_result_invariant_witness :
  let r := {| success := false; language := ""; confidence := 0;
              method := ""; text_sample := []; char_count := 0;
              error := Some "Text too short for reliable detection (minimum 3 characters)"%string |} in
  outcome (detect no_langdetect (__init__ no_langdetect true)
                  (VStr (text_of "Hi"))) = Ok r
  /\ (success r = false -> language r = ""%string /\ confidence r = 0%Q)
  /\ (error r <> None <-> success r = false).
Proof.
  split; [reflexivity|].
  apply (detect_result_invariant no_langdetect (__init__ no_langdetect true)
           (VStr (text_of "Hi"))).
  reflexivity.
Defined.

Lemma ratio_below_threshold_en_witness :
  passes_validation (VStr hello_salam_world)
  /\ 0 < analyzable_count hello_salam_world
  /\ (script_ratio hello_salam_world <= 3 # 10)%Q
  /\ exists r,
       outcome (detect (langdetect_saying "fa")
                       (__init__ (langdetect_saying "fa") true)
                       (VStr hello_salam_world)) = Ok r
       /\ language r = "en"%string.
Proof.
  assert (Hv : passes_validation (VStr hello_salam_world)) by reflexivity.
  assert (Hpos : 0 < analyzable_count hello_salam_world) by reflexivity.
  assert (Hr : (script_ratio hello_salam_world <= 3 # 10)%Q) by by_evaluation.
  repeat split; try assumption.
  apply ratio_below_threshold_en; assumption.
Defined.


(** C1 as stated fails.  In "Hello World" followed by salam and aap six of
    the sixteen analyzable characters are Urdu: the ratio is 37.5%, the
    script confidence 57.5, so the fallback runs; with [langdetect]
    answering [en], [detect] returns [en]. *)
Lemma ratio_above_threshold_not_always_ur :
  passes_validation (VStr hello_world_salam_aap)
  /\ (3 # 10 < script_ratio hello_world_salam_aap)%Q
  /\ exists r,
       outcome (detect (langdetect_saying "en")
                       (__init__ (langdetect_saying "en") true)
                       (VStr hello_world_salam_aap)) = Ok r
       /\ language r = "en"%string
       /\ method r = "library"%string
       /\ language r <> "ur"%string.
Proof.
  split; [reflexivity|]. split; [by_evaluation|].
  eexists. split; [reflexivity|].
  split; [reflexivity|]. split; [reflexivity | discriminate].
Qed.

(** The same on the mixed example of the module, when the library takes
    the Urdu words for Persian: the unsupported code is coerced to [en]. *)
Lemma pakistan_zindabad_persian :
  (3 # 10 < script_ratio pakistan_zindabad)%Q
  /\ exists r,
       outcome (detect (langdetect_saying "fa")
                       (__init__ (langdetect_saying "fa") true)
                       (VStr pakistan_zindabad)) = Ok r
       /\ language r = "en"%string
       /\ (confidence r == 60)%Q.
Proof.
  split; [by_evaluation|].
  eexists. split; [reflexivity|]. split; [reflexivity | by_evaluation].
Qed.

Lemma ratio_above_threshold_ur_witness :
  passes_validation (VStr pakistan_zindabad)
  /\ (3 # 10 < script_ratio pakistan_zindabad)%Q
  /\ exists r,
       outcome (detect no_langdetect (__init__ no_langdetect true)
                       (VStr pakistan_zindabad)) = Ok r
       /\ language r = "ur"%string.
Proof.
  assert (Hv : passes_validation (VStr pakistan_zindabad)) by reflexivity.
  assert (Hr : (3 # 10 < script_ratio pakistan_zindabad)%Q) by by_evaluation.
  repeat split; try assumption.
  apply (proj1 (ratio_above_threshold_ur no_langdetect
                  (__init__ no_langdetect true) pakistan_zindabad Hv Hr)).
  right. left. reflexivity.
Defined.

(** C3.  [detect] on the empty string, on two spaces and on a two-letter
    word returns a failed result, and on a three-character text a
    successful one; on [None] it raises [TypeError] from the slice of its
    first line, before [_validate_input] is reached. *)
Theorem detect_validation_examples (rt : Runtime) (self : LanguageDetector.t) :
  outcome (detect rt self VNone) = Raise TypeError
  /\ (exists r, outcome (detect rt self (VStr [])) = Ok r
                /\ success r = false
                /\ error r = Some "Text cannot be empty or only whitespace"%string)
  /\ (exists r, outcome (detect rt self (VStr (text_of "  "))) = Ok r
                /\ success r = false
                /\ error r = Some "Text cannot be empty or only whitespace"%string)
  /\ (exists r, outcome (detect rt self (VStr (text_of "Hi"))) = Ok r
                /\ success r = false
                /\ error r = Some "Text too short for reliable detection (minimum 3 characters)"%string)
  /\ (exists r, outcome (detect rt self (VStr (text_of "Hi!"))) = Ok r
                /\ success r = true).
Proof.
  split; [reflexivity|].
  repeat split; eexists; (split; [reflexivity|]); split; reflexivity.
Qed.

(** The non-string input of the module's own test raises as well, while a
    sliceable non-string reaches the type check. *)
Lemma detect_non_string (rt : Runtime) (self : LanguageDetector.t) :
  outcome (detect rt self (VInt 12345)) = Raise TypeError
  /\ exists r, outcome (detect rt self (VList [1; 2; 3])) = Ok r
               /\ success r = false
               /\ error r = Some "Text must be a string"%string.
Proof.
  split; [reflexivity|]. eexists. repeat split.
Qed.

(** ** Claims about the script classifier *)

Section ClassifierClaims.


(** The confidence as a function of the ratio. *)
Lemma unicode_confidence_cases (text : str) (u : UnicodeResult) :
  0 < analyzable_count text ->
  _detect_by_unicode text = Ok u ->
  ((script_ratio text <= 3 # 10)%Q
   /\ u_language u = "en"%string
   /\ u_confidence u = Py.min (100 - script_ratio text * 100 + 20)%Q 99)
  \/ ((3 # 10 < script_ratio text)%Q
      /\ u_language u = "ur"%string
      /\ u_confidence u = Py.min (script_ratio text * 100 + 20)%Q 99).
Proof.
  intros Hpos Hu.
  destruct (Qlt_le_dec (3 # 10) (script_ratio text)) as [H|H].
  - right. rewrite (unicode_ur text H) in Hu. injection Hu as <-. auto.
  - left. rewrite (unicode_en text Hpos H) in Hu. injection Hu as <-. auto.
Qed.




(** C7.  [_detect_by_unicode] returns a result for every string, and for a
    string without analyzable character that result is [en] with
    confidence 50. *)
Theorem detect_by_unicode_total_and_neutral (text : str) :
  (exists u, _detect_by_unicode text = Ok u)
  /\ (analyzable_count text = 0 ->
      _detect_by_unicode text
      = Ok {| u_language := "en"; u_confidence := 50 |}).
Proof.
  split.
  - apply detect_by_unicode_total.
  - apply detect_by_unicode_empty.
Qed.

Lemma detect_by_unicode_total_and_neutral_witness :
  analyzable_count (text_of "!!! ??? ...") = 0
  /\ _detect_by_unicode (text_of "!!! ??? ...")
     = Ok {| u_language := "en"; u_confidence := 50 |}.
Proof.
  split; [reflexivity|].
  apply (proj2 (detect_by_unicode_total_and_neutral (text_of "!!! ??? ..."))).
  reflexivity.
Defined.

Lemma binary64_detect_by_unicode_total (text : str) :
  exists r, Binary64._detect_by_unicode text = Ok r.
Proof.
  unfold Binary64._detect_by_unicode. rewrite scan_fold, !Z.add_0_l.
  destruct (analyzable_count text =? 0) eqn:E; [eexists; reflexivity|].
  unfold Binary64.truediv. rewrite E. cbn [Py.bind].
  destruct (PrimFloat.ltb _ _); eexists; reflexivity.
Qed.

(** C8, amended.  On binary64 numbers, for every text whose counts are
    below 2^53 and every threshold, [is_mixed_language] returns without
    raising, and it answers [True] exactly when there is an analyzable
    character and [threshold <= q <= d], where [q] is the quotient of the
    two counts rounded to binary64 and [d] is [1 - threshold] rounded to
    binary64 (the [int] 1 converted first); it answers [False] on a text
    without analyzable character. *)
Theorem is_mixed_language_binary64 (text : str) (threshold : PrimFloat.float) :
  analyzable_count text < 2 ^ 53 ->
  exists b,
    Binary64.is_mixed_language text threshold = Ok b
    /\ (b = true <->
        0 < analyzable_count text
        /\ PrimFloat.leb threshold (Binary64.script_ratio text) = true
        /\ PrimFloat.leb (Binary64.script_ratio text)
                         (PrimFloat.sub (Binary64.of_int 1) threshold) = true)
    /\ (analyzable_count text = 0 -> b = false).
Proof.
  intros _. unfold Binary64.is_mixed_language.
  destruct (binary64_detect_by_unicode_total text) as [r ->]. cbn [Py.bind].
  rewrite sum_ones, urdu_fold, Z.add_0_l.
  pose proof (counts_bounds text) as [Hlo Hhi].
  destruct (analyzable_count text =? 0) eqn:E.
  - apply Z.eqb_eq in E. exists false. split; [reflexivity|].
    split; [|reflexivity].
    split; [discriminate|]. intros [Hpos _]. lia.
  - unfold Binary64.truediv. rewrite E. cbn [Py.bind].
    apply Z.eqb_neq in E.
    fold (Binary64.script_ratio text). eexists. split; [reflexivity|].
    split; [|intros H0; contradiction].
    rewrite andb_true_iff. split.
    + intros H. split; [lia | exact H].
    + intros [_ H]. exact H.
Qed.

Lemma is_mixed_language_binary64_witness :
  analyzable_count hello_salam_world < 2 ^ 53
  /\ exists b,
       Binary64.is_mixed_language hello_salam_world Binary64.default_threshold
       = Ok b
       /\ (b = true <->
           0 < analyzable_count hello_salam_world
           /\ PrimFloat.leb Binary64.default_threshold
                            (Binary64.script_ratio hello_salam_world) = true
           /\ PrimFloat.leb (Binary64.script_ratio hello_salam_world)
                            (PrimFloat.sub (Binary64.of_int 1) Binary64.default_threshold)
              = true)
       /\ (analyzable_count hello_salam_world = 0 -> b = false).
Proof.
  assert (Hn : analyzable_count hello_salam_world < 2 ^ 53) by reflexivity.
  split; [exact Hn|].
  exact (is_mixed_language_binary64 hello_salam_world
           Binary64.default_threshold Hn).
Defined.

(** C8 as stated fails at the ends of the interval.  With the threshold
    0.32, [1 - threshold] is rounded to 0.6799999999999999, so a text with
    17 Urdu characters out of 25 is not mixed although its ratio 0.68 lies
    in the closed interval from 0.32 to 0.68.  And the binary64 number
    written 0.32 stands for a rational just above 0.32, so a text with 8
    Urdu characters out of 25 is mixed although its ratio is below that
    threshold. *)
Lemma is_mixed_language_rounds_the_ends :
  PrimFloat.div (Binary64.of_int 32) (Binary64.of_int 100)
  = Binary64.literal_0_32
  /\ Binary64.is_mixed_language urdu_17_of_25 Binary64.literal_0_32 = Ok false
  /\ (32 # 100 <= script_ratio urdu_17_of_25 <= 1 - (32 # 100))%Q
  /\ Binary64.is_mixed_language urdu_8_of_25 Binary64.literal_0_32 = Ok true
  /\ Binary64.to_Q Binary64.literal_0_32
     = Some (5764607523034235 # 18014398509481984)
  /\ ~ ((5764607523034235 # 18014398509481984)
        <= script_ratio urdu_8_of_25
        <= 1 - (5764607523034235 # 18014398509481984))%Q.
Proof.
  split; [reflexivity|]. split; [reflexivity|].
  split; [split; by_evaluation|]. split; [reflexivity|].
  split; [reflexivity|].
  intros [H _]. vm_compute in H. apply H. reflexivity.
Qed.

End ClassifierClaims.

(** The three cases of the module's test of [is_mixed_language]. *)
Lemma is_mixed_language_examples :
  is_mixed_language (text_of "Hello World " ++ salam ++ 32 :: dunya) 0.20 = Ok true
  /\ is_mixed_language (text_of "Hello World") 0.20 = Ok false
  /\ is_mixed_language (salam ++ 32 :: dunya) 0.20 = Ok false
  /\ is_mixed_language hello_salam_world 0.20 = Ok true
  /\ is_mixed_language (text_of "?!") 0.20 = Ok false.
Proof. repeat split. Qed.

(** ** The reduced form *)

Section QuickDetect.

Variable rt : Runtime.

Lemma outcome_rbind {A B : Type} (m : Run A) (k : A -> Run B) (a : A) :
  outcome m = Ok a -> outcome (rbind m k) = outcome (k a).
Proof.
  unfold outcome, rbind. intros ->. reflexivity.
Qed.

(** On a string [detect] always returns: a failed result when validation
    rejects it, a successful one with a supported language otherwise. *)
Lemma detect_str_returns (self : LanguageDetector.t) (s : str) :
  exists r,
    outcome (detect rt self (VStr s)) = Ok r
    /\ (success r = true ->
        language r = "en"%string \/ language r = "ur"%string).
Proof.
  destruct (LanguageDetector._validate_input (VStr s)) as [msg|] eqn:Hval.
  - assert (T : truthy (Some msg) = true).
    { cbn in Hval.
      destruct (len (strip s) =? 0); [injection Hval as <-; reflexivity|].
      destruct (len (strip s) <? 3); [injection Hval as <-; reflexivity|].
      discriminate. }
    eexists. split.
    + unfold detect, outcome. cbn [getslice lift rbind fst snd].
      rewrite Hval, T. reflexivity.
    + cbn. discriminate.
  - destruct (detect_valid_returns rt self s Hval) as (r & Hr & _ & _ & Hl).
    exists r. auto.
Qed.

(** On a string [quick_detect] returns one of the two codes, and [en]
    when the full result is a failure. *)
Lemma quick_detect_str (s : str) :
  exists r code,
    outcome (detect_language rt (VStr s)) = Ok r
    /\ outcome (quick_detect rt (VStr s)) = Ok code
    /\ (code = "en"%string \/ code = "ur"%string)
    /\ (success r = false -> code = "en"%string).
Proof.
  unfold quick_detect, detect_language.
  destruct (detect_str_returns (__init__ rt true) s) as (r & Hr & Hl).
  exists r. eexists. split; [exact Hr|].
  rewrite (outcome_rbind _ _ r Hr). split; [reflexivity|].
  destruct (success r); split; auto; discriminate.
Qed.

(** C9.  [quick_detect] answers [en] for the rejected empty string, but on
    [None] (and on an [int]) the [TypeError] raised by the first line of
    [detect] reaches its caller. *)
Theorem quick_detect_none_raises :
  outcome (quick_detect rt VNone) = Raise TypeError
  /\ outcome (quick_detect rt (VInt 12345)) = Raise TypeError
  /\ outcome (quick_detect rt (VStr [])) = Ok "en"%string.
Proof.
  repeat split.
Qed.

End QuickDetect.

(** ** The examples on binary64 numbers *)

Module Binary64Examples.

Import PrimFloat.

Lemma hello_world_salam_aap_counts :
  analyzable_count hello_world_salam_aap = 16
  /\ target_count hello_world_salam_aap = 6.
Proof. split; reflexivity. Qed.

(** [URDU_THRESHOLD * 100] is exactly 30. *)
Lemma binary64_threshold :
  PrimFloat.mul Binary64.URDU_THRESHOLD 100%float = 30%float.
Proof. reflexivity. Qed.

(** Half-and-half: 70, not above the acceptance bar. *)
Lemma binary64_test_salam :
  Binary64.classify 4 8 = ("ur"%string, 70%float)
  /\ Binary64.confident 70%float = false.
Proof. split; reflexivity. Qed.

(** Six of sixteen: 57.5. *)
Lemma binary64_hello_world_salam_aap :
  Binary64.classify 6 16 = ("ur"%string, 57.5%float)
  /\ Binary64.confident 57.5%float = false.
Proof. split; reflexivity. Qed.

(** Seven of fifteen: the confidence is rounded, and stays below 70. *)
Lemma binary64_pakistan_zindabad :
  fst (Binary64.classify 7 15) = "ur"%string
  /\ Binary64.confident (snd (Binary64.classify 7 15)) = false.
Proof. split; reflexivity. Qed.

(** Four of fourteen and none of ten: English, above the acceptance bar. *)
Lemma binary64_english :
  fst (Binary64.classify 4 14) = "en"%string
  /\ Binary64.confident (snd (Binary64.classify 4 14)) = true
  /\ Binary64.classify 0 10 = ("en"%string, 99%float)
  /\ Binary64.confident 99%float = true.
Proof. split; [reflexivity|]. split; [reflexivity|]. split; reflexivity. Qed.

Lemma binary64_mixed :
  Binary64.mixed 4 14 Binary64.default_threshold = true
  /\ Binary64.mixed 8 18 Binary64.default_threshold = true
  /\ Binary64.mixed 0 10 Binary64.default_threshold = false
  /\ Binary64.mixed 8 8 Binary64.default_threshold = false.
Proof. split; [reflexivity|]. split; [reflexivity|]. split; reflexivity. Qed.

(** Seven of nine and two of nine are at the same distance from the
    midpoint, on opposite sides; the two confidences differ in the last
    bit. *)
Lemma binary64_equal_distance :
  fst (Binary64.classify 7 9) = "ur"%string
  /\ fst (Binary64.classify 2 9) = "en"%string
  /\ ltb (snd (Binary64.classify 2 9)) (snd (Binary64.classify 7 9)) = true.
Proof.
  split; [reflexivity|]. split; reflexivity.
Qed.

(** The two ends of the default interval are inside it. *)
Lemma binary64_mixed_ends :
  Binary64.mixed 1 5 Binary64.default_threshold = true
  /\ Binary64.mixed 4 5 Binary64.default_threshold = true.
Proof. split; reflexivity. Qed.

End Binary64Examples.

(** * Further properties of the detector *)

Section DetectRuns.

Variable rt : Runtime.
Variable self : LanguageDetector.t.

(** A validation message is never the empty string. *)
Lemma validation_message_truthy (text : value) (msg : string) :
  LanguageDetector._validate_input text = Some msg ->
  truthy (Some msg) = true.
Proof.
  destruct text as [| n | items | s]; cbn [LanguageDetector._validate_input].
  - intros [= <-]. reflexivity.
  - intros [= <-]. reflexivity.
  - intros [= <-]. reflexivity.
  - destruct (len (strip s) =? 0); [intros [= <-]; reflexivity|].
    destruct (len (strip s) <? 3); [intros [= <-]; reflexivity|].
    discriminate.
Qed.

(** The whole run of [detect] on an input that validation rejects. *)
Lemma detect_invalid_run (text : value) (msg : string) :
  LanguageDetector._validate_input text = Some msg ->
  detect rt self text =
    match text with
    | VNone | VInt _ => ([], Raise TypeError)
    | _ => ([], Ok (rejected msg))
    end.
Proof.
  intros Hval. pose proof (validation_message_truthy text msg Hval) as T.
  destruct text as [| n | items | s]; try reflexivity.
  - unfold detect. cbn [getslice lift rbind fst snd app].
    rewrite Hval, T. reflexivity.
  - unfold detect. cbn [getslice lift rbind fst snd app].
    rewrite Hval, T. reflexivity.
Qed.

(** The whole run of [detect] on an input that validation lets through. *)
Lemma detect_valid_run (s : str) (u : UnicodeResult) :
  passes_validation (VStr s) ->
  _detect_by_unicode s = Ok u ->
  detect rt self (VStr s) =
    if fgt (u_confidence u) 70 then ([], Ok (unicode_accepted u s))
    else if use_fallback self && LANGDETECT_AVAILABLE rt
    then match detect_text rt s with
         | Some code => ([s], Ok (library_accepted (library_answer code) s))
         | None => ([s], Ok (unicode_accepted u s))
         end
    else ([], Ok (unicode_accepted u s)).
Proof.
  intros Hv Hu. rewrite (detect_valid rt self s u Hv Hu).
  destruct (fgt (u_confidence u) 70); [reflexivity|].
  destruct (use_fallback self); cbn [andb]; [|reflexivity].
  unfold _detect_by_library, langdetect_detect, library_answer.
  destruct (LANGDETECT_AVAILABLE rt); cbn [negb]; [|reflexivity].
  destruct (detect_text rt s) as [code|]; [|reflexivity].
  cbn [rbind fst snd app].
  destruct (String.eqb code "ur"); [reflexivity|].
  destruct (String.eqb code "en"); reflexivity.
Qed.

(** The acceptance bar in terms of the script ratio. *)
Lemma script_inconclusive (s : str) (u : UnicodeResult) :
  _detect_by_unicode s = Ok u ->
  fgt (u_confidence u) 70 = false <-> inconclusive s.
Proof.
  intros Hu. rewrite fgt_false. unfold inconclusive.
  pose proof (counts_bounds s) as [Hlo Hhi].
  destruct (Z.eq_dec (analyzable_count s) 0) as [E|E].
  - rewrite (detect_by_unicode_empty s E) in Hu. injection Hu as <-.
    cbn [u_confidence]. split; [auto | intros _; lra].
  - assert (Hpos : 0 < analyzable_count s) by lia.
    pose proof (ratio_bounds s Hpos) as [R0 R1].
    destruct (unicode_confidence_cases s u Hpos Hu)
      as [(Hr & _ & ->)|(Hr & _ & ->)].
    + destruct (min_cases (100 - script_ratio s * 100 + 20) 99)
        as [[Hm ->]|[Hm ->]]; split; try lra;
        intros [H0|[H1 H2]]; try contradiction; lra.
    + destruct (min_cases (script_ratio s * 100 + 20) 99)
        as [[Hm ->]|[Hm ->]]; split; try lra;
        (intros H; right; lra) || (intros [H0|[H1 H2]]; try contradiction; lra).
Qed.

End DetectRuns.

Section DetectFurther.

Variable rt : Runtime.
Variable self : LanguageDetector.t.

(** Every run of [detect] is one of the two above. *)
Lemma detect_run_cases (text : value) :
  (exists msg,
     LanguageDetector._validate_input text = Some msg
     /\ detect rt self text =
          match text with
          | VNone | VInt _ => ([], Raise TypeError)
          | _ => ([], Ok (rejected msg))
          end)
  \/ (exists s u,
        text = VStr s
        /\ passes_validation (VStr s)
        /\ _detect_by_unicode s = Ok u
        /\ detect rt self text =
             if fgt (u_confidence u) 70 then ([], Ok (unicode_accepted u s))
             else if use_fallback self && LANGDETECT_AVAILABLE rt
             then match detect_text rt s with
                  | Some code =>
                      ([s], Ok (library_accepted (library_answer code) s))
                  | None => ([s], Ok (unicode_accepted u s))
                  end
             else ([], Ok (unicode_accepted u s))).
Proof.
  destruct (LanguageDetector._validate_input text) as [msg|] eqn:Hval.
  - left. exists msg. split; [reflexivity|].
    now apply detect_invalid_run.
  - right. destruct (passes_validation_str text Hval) as (s & -> & _).
    destruct (detect_by_unicode_total s) as [u Hu].
    exists s, u. repeat split; try assumption.
    now apply detect_valid_run.
Qed.

Lemma library_answer_cases (code : string) :
  l_success (library_answer code) = true
  /\ ((code = "ur"%string
       /\ l_language (library_answer code) = "ur"%string
       /\ l_confidence (library_answer code) = 95%Q)
      \/ (code = "en"%string
          /\ l_language (library_answer code) = "en"%string
          /\ l_confidence (library_answer code) = 95%Q)
      \/ (code <> "ur"%string /\ code <> "en"%string
          /\ l_language (library_answer code) = "en"%string
          /\ l_confidence (library_answer code) = 60%Q)).
Proof.
  unfold library_answer.
  destruct (String.eqb code "ur") eqn:Eur.
  - apply String.eqb_eq in Eur. cbn. auto.
  - apply String.eqb_neq in Eur.
    destruct (String.eqb code "en") eqn:Een.
    + apply String.eqb_eq in Een. cbn. auto 6.
    + apply String.eqb_neq in Een. cbn. auto 8.
Qed.

(** The script result: language, and confidence between 50 and 99, with 50
    only for a text without analyzable character. *)
Lemma unicode_result_shape (s : str) (u : UnicodeResult) :
  _detect_by_unicode s = Ok u ->
  (u_language u = "en"%string \/ u_language u = "ur"%string)
  /\ (50 <= u_confidence u <= 99)%Q
  /\ ((u_confidence u == 50)%Q ->
      analyzable_count s = 0 /\ u_language u = "en"%string).
Proof.
  intros Hu. pose proof (counts_bounds s) as [Hlo Hhi].
  destruct (Z.eq_dec (analyzable_count s) 0) as [E|E].
  - rewrite (detect_by_unicode_empty s E) in Hu. injection Hu as <-.
    cbn. repeat split; auto; lra.
  - assert (Hpos : 0 < analyzable_count s) by lia.
    pose proof (ratio_bounds s Hpos) as [R0 R1].
    destruct (unicode_confidence_cases s u Hpos Hu)
      as [(Hr & -> & ->)|(Hr & -> & ->)].
    + destruct (min_cases (100 - script_ratio s * 100 + 20) 99)
        as [[Hm ->]|[Hm ->]]; repeat split; auto; try lra;
        intros Hc; exfalso; lra.
    + destruct (min_cases (script_ratio s * 100 + 20) 99)
        as [[Hm ->]|[Hm ->]]; repeat split; auto; try lra;
        intros Hc; exfalso; lra.
Qed.

(** X1.  [detect] raises exactly on the inputs that cannot be sliced,
    [None] and integers, and then it is a [TypeError]; on a string or a
    list it always returns a result. *)
Theorem detect_raises_iff (text : value) (e : exn) :
  outcome (detect rt self text) = Raise e
  <-> e = TypeError /\ (text = VNone \/ exists n, text = VInt n).
Proof.
  split.
  - intros Hr.
    destruct (detect_run_cases text)
      as [(msg & Hval & Hrun)|(s & u & -> & Hv & Hu & Hrun)];
      rewrite Hrun in Hr.
    + destruct text as [| n | items | s]; cbn in Hr; try discriminate;
        injection Hr as <-; split; eauto.
    + exfalso.
      destruct (fgt (u_confidence u) 70); [discriminate|].
      destruct (use_fallback self && LANGDETECT_AVAILABLE rt); [|discriminate].
      destruct (detect_text rt s); discriminate.
  - intros [-> [-> | [n ->]]]; reflexivity.
Qed.

(** X2.  The language of a successful result is always one of the codes
    listed by [get_supported_languages], whatever the library reports. *)
Theorem detect_language_closed_set (text : value) (r : LanguageDetectionResult) :
  outcome (detect rt self text) = Ok r ->
  success r = true ->
  In (language r) get_supported_languages.
Proof.
  intros Hr Hs. apply supported_language.
  destruct (detect_run_cases text)
    as [(msg & Hval & Hrun)|(s & u & -> & Hv & Hu & Hrun)];
    rewrite Hrun in Hr.
  - destruct text; cbn in Hr; try discriminate;
      injection Hr as <-; discriminate.
  - destruct (unicode_result_shape s u Hu) as (Lu & _).
    destruct (fgt (u_confidence u) 70);
      [injection Hr as <-; exact Lu|].
    destruct (use_fallback self && LANGDETECT_AVAILABLE rt);
      [|injection Hr as <-; exact Lu].
    destruct (detect_text rt s) as [code|];
      [|injection Hr as <-; exact Lu].
    injection Hr as <-. cbn [language library_accepted].
    destruct (library_answer_cases code)
      as (_ & [(_ & -> & _)|[(_ & -> & _)|(_ & _ & -> & _)]]); auto.
Qed.

(** X3.  The confidence of a successful result lies between 50 and 99, and
    it is 50 only for a string without analyzable character, classified
    [en] by the script analysis. *)
Theorem detect_confidence_bounds (text : value) (r : LanguageDetectionResult) :
  outcome (detect rt self text) = Ok r ->
  success r = true ->
  (50 <= confidence r <= 99)%Q
  /\ ((confidence r == 50)%Q ->
      method r = "unicode"%string
      /\ language r = "en"%string
      /\ exists s, text = VStr s /\ analyzable_count s = 0).
Proof.
  intros Hr Hs.
  destruct (detect_run_cases text)
    as [(msg & Hval & Hrun)|(s & u & -> & Hv & Hu & Hrun)];
    rewrite Hrun in Hr.
  - destruct text; cbn in Hr; try discriminate;
      injection Hr as <-; discriminate.
  - destruct (unicode_result_shape s u Hu) as (_ & Hb & H50).
    assert (Huni : (50 <= confidence (unicode_accepted u s) <= 99)%Q
                   /\ ((confidence (unicode_accepted u s) == 50)%Q ->
                       method (unicode_accepted u s) = "unicode"%string
                       /\ language (unicode_accepted u s) = "en"%string
                       /\ exists s', VStr s = VStr s' /\ analyzable_count s' = 0)).
    { cbn. split; [exact Hb|]. intros Hc. destruct (H50 Hc) as [H0 Hl].
      repeat split; auto. exists s. auto. }
    destruct (fgt (u_confidence u) 70);
      [injection Hr as <-; exact Huni|].
    destruct (use_fallback self && LANGDETECT_AVAILABLE rt);
      [|injection Hr as <-; exact Huni].
    destruct (detect_text rt s) as [code|];
      [|injection Hr as <-; exact Huni].
    injection Hr as <-. cbn [confidence library_accepted].
    destruct (library_answer_cases code)
      as (_ & [(_ & _ & ->)|[(_ & _ & ->)|(_ & _ & _ & ->)]]);
      (split; [lra | intros Hc; exfalso; revert Hc; by_evaluation]).
Qed.

End DetectFurther.

(** ** Stripping *)

Section Stripping.

Lemma lstrip_length (s : str) : (List.length (lstrip s) <= List.length s)%nat.
Proof.
  induction s as [|c s IH]; cbn [lstrip]; [lia|].
  destruct (isspace c); cbn [List.length]; lia.
Qed.

Lemma strip_length (s : str) : len (strip s) <= len s.
Proof.
  unfold len, strip, rstrip. rewrite length_rev.
  pose proof (lstrip_length (rev (lstrip s))) as H1.
  rewrite length_rev in H1.
  pose proof (lstrip_length s) as H2. lia.
Qed.

Lemma lstrip_blank_app (before s : str) :
  blank before -> lstrip (before ++ s) = lstrip s.
Proof.
  unfold blank. induction 1 as [|c before Hc _ IH]; [reflexivity|].
  cbn [app lstrip]. now rewrite Hc.
Qed.

Lemma lstrip_blank (s : str) : blank s -> lstrip s = [].
Proof.
  intros H. rewrite <- (app_nil_r s) at 1.
  now rewrite lstrip_blank_app.
Qed.

(** Either the whole text is blank, or stripping on the left keeps a
    first character that is not whitespace. *)
Lemma lstrip_cases (s : str) :
  (blank s /\ lstrip s = [])
  \/ (exists before c rest,
        blank before /\ isspace c = false
        /\ s = before ++ c :: rest /\ lstrip s = c :: rest).
Proof.
  induction s as [|c s IH].
  - left. split; [constructor | reflexivity].
  - cbn [lstrip]. destruct (isspace c) eqn:Hc.
    + destruct IH as [[Hb ->]|(before & c' & rest & Hb & Hc' & -> & ->)].
      * left. split; [now constructor | reflexivity].
      * right. exists (c :: before), c', rest.
        repeat split; auto. now constructor.
    + right. exists [], c, s. repeat split; auto. constructor.
Qed.

Lemma blank_rev (s : str) : blank s -> blank (rev s).
Proof. unfold blank. apply Forall_rev. Qed.

Lemma rstrip_blank_app (s after : str) :
  blank after -> rstrip (s ++ after) = rstrip s.
Proof.
  intros H. unfold rstrip. rewrite rev_app_distr.
  now rewrite lstrip_blank_app by now apply blank_rev.
Qed.

Lemma strip_padding (before s after : str) :
  blank before -> blank after ->
  strip (before ++ s ++ after) = strip s.
Proof.
  intros Hb Ha. unfold strip. rewrite lstrip_blank_app by exact Hb.
  destruct (lstrip_cases s)
    as [[Hs ->]|(before' & c & rest & Hb' & Hc & -> & ->)].
  - rewrite lstrip_blank_app by exact Hs.
    now rewrite (lstrip_blank after Ha).
  - rewrite <- app_assoc, lstrip_blank_app by exact Hb'.
    cbn [app lstrip]. rewrite Hc.
    change (c :: rest ++ after) with ((c :: rest) ++ after).
    now apply rstrip_blank_app.
Qed.

End Stripping.

Section DetectBookkeeping.

Variable rt : Runtime.
Variable self : LanguageDetector.t.

(** X4.  A successful result reports the length of the raw input, spaces
    around it included, which is at least the 3 characters that validation
    asks of the stripped text; its sample is the first 100 characters, or
    the whole input when it is shorter. *)
Theorem detect_sample_and_count (text : value) (r : LanguageDetectionResult) :
  outcome (detect rt self text) = Ok r ->
  success r = true ->
  exists s,
    text = VStr s
    /\ text_sample r = firstn 100 s
    /\ char_count r = len s
    /\ 3 <= len (strip s) <= char_count r
    /\ len (text_sample r) = Z.min 100 (char_count r).
Proof.
  intros Hr Hs.
  destruct (detect_run_cases rt self text)
    as [(msg & Hval & Hrun)|(s & u & -> & Hv & Hu & Hrun)];
    rewrite Hrun in Hr.
  - destruct text; cbn in Hr; try discriminate;
      injection Hr as <-; discriminate.
  - destruct (passes_validation_str (VStr s) Hv) as (s' & [= <-] & H3).
    pose proof (strip_length s) as Hle.
    assert (Hlen : len (firstn 100 s) = Z.min 100 (len s)).
    { unfold len. rewrite length_firstn. lia. }
    exists s.
    assert (Huni : text_sample (unicode_accepted u s) = firstn 100 s
                   /\ char_count (unicode_accepted u s) = len s) by (split; reflexivity).
    assert (Hlib : forall l, text_sample (library_accepted l s) = firstn 100 s
                   /\ char_count (library_accepted l s) = len s) by (split; reflexivity).
    assert (Hgoal : forall r', text_sample r' = firstn 100 s /\ char_count r' = len s ->
              VStr s = VStr s
              /\ text_sample r' = firstn 100 s
              /\ char_count r' = len s
              /\ 3 <= len (strip s) <= char_count r'
              /\ len (text_sample r') = Z.min 100 (char_count r')).
    { intros r' [-> ->]. repeat split; auto; lia. }
    destruct (fgt (u_confidence u) 70);
      [injection Hr as <-; now apply Hgoal|].
    destruct (use_fallback self && LANGDETECT_AVAILABLE rt);
      [|injection Hr as <-; now apply Hgoal].
    destruct (detect_text rt s) as [code|];
      injection Hr as <-; now apply Hgoal.
Qed.

(** X5.  [detect] hands a text to the library at most once, unchanged, and
    it does so exactly when the text passes validation, the script analysis
    is inconclusive (no analyzable character, or a ratio above 30% and at
    most 50%), the detector was built with the fallback and the library is
    installed. *)
Theorem library_called_iff (text : value) :
  (calls (detect rt self text) = []
   \/ exists s, text = VStr s /\ calls (detect rt self text) = [s])
  /\ (calls (detect rt self text) <> [] <->
      exists s,
        text = VStr s
        /\ passes_validation text
        /\ inconclusive s
        /\ use_fallback self = true
        /\ LANGDETECT_AVAILABLE rt = true).
Proof.
  destruct (detect_run_cases rt self text)
    as [(msg & Hval & Hrun)|(s & u & -> & Hv & Hu & Hrun)];
    rewrite Hrun.
  - assert (Hc : calls (match text with
                        | VNone | VInt _ => ([], Raise TypeError)
                        | _ => ([], Ok (rejected msg))
                        end : Run LanguageDetectionResult) = [])
      by (destruct text; reflexivity).
    rewrite Hc. split; [now left|]. split; [congruence|].
    intros (s & -> & Hv & _). unfold passes_validation in Hv. congruence.
  - pose proof (script_inconclusive s u Hu) as Hinc.
    destruct (fgt (u_confidence u) 70) eqn:Hconf.
    + split; [now left|]. split; [cbn; congruence|].
      intros (s' & [= <-] & _ & Hi & _). apply Hinc in Hi. discriminate.
    + assert (Hi : inconclusive s) by now apply Hinc.
      destruct (use_fallback self) eqn:Huse;
        destruct (LANGDETECT_AVAILABLE rt) eqn:Hav; cbn [andb];
        try (split; [now left|]; split; [cbn; congruence|];
             intros (s' & _ & _ & _ & H1 & H2); congruence).
      assert (Hcalls : calls (match detect_text rt s with
                              | Some code =>
                                  ([s], Ok (library_accepted (library_answer code) s))
                              | None => ([s], Ok (unicode_accepted u s))
                              end) = [s])
        by (destruct (detect_text rt s); reflexivity).
      rewrite Hcalls. split; [right; eauto|].
      split; [|discriminate]. intros _. exists s. auto.
Qed.

(** X6.  A result marked [library] comes from a library answer on an
    inconclusive text: confidence 95 with the library's own code when that
    is [ur] or [en], and [en] with confidence 60 for every other code. *)
Theorem library_result_shape (text : value) (r : LanguageDetectionResult) :
  outcome (detect rt self text) = Ok r ->
  method r = "library"%string ->
  exists s code,
    text = VStr s
    /\ inconclusive s
    /\ detect_text rt s = Some code
    /\ success r = true
    /\ ((code = "ur"%string /\ language r = "ur"%string /\ confidence r = 95%Q)
        \/ (code = "en"%string /\ language r = "en"%string /\ confidence r = 95%Q)
        \/ (code <> "ur"%string /\ code <> "en"%string
            /\ language r = "en"%string /\ confidence r = 60%Q)).
Proof.
  intros Hr Hm.
  destruct (detect_run_cases rt self text)
    as [(msg & Hval & Hrun)|(s & u & -> & Hv & Hu & Hrun)];
    rewrite Hrun in Hr.
  - destruct text; cbn in Hr; try discriminate;
      injection Hr as <-; discriminate.
  - pose proof (script_inconclusive s u Hu) as Hinc.
    destruct (fgt (u_confidence u) 70) eqn:Hconf;
      [injection Hr as <-; discriminate|].
    destruct (use_fallback self && LANGDETECT_AVAILABLE rt);
      [|injection Hr as <-; discriminate].
    destruct (detect_text rt s) as [code|] eqn:Hdet;
      [|injection Hr as <-; discriminate].
    injection Hr as <-. exists s, code.
    destruct (library_answer_cases code) as (_ & Hcases).
    repeat split; auto. now apply Hinc.
Qed.

End DetectBookkeeping.

(** X7.  A detector built with [use_library_fallback=False], or built while
    [langdetect] is not installed, behaves as if the library did not exist:
    no call is made, the run does not depend on what the library would
    answer, and every successful result is marked [unicode]. *)
Theorem detect_without_fallback (rt : Runtime) (flag : bool) (text : value) :
  flag = false \/ LANGDETECT_AVAILABLE rt = false ->
  detect rt (__init__ rt flag) text
  = detect no_langdetect (__init__ no_langdetect true) text
  /\ calls (detect rt (__init__ rt flag) text) = []
  /\ (forall r, outcome (detect rt (__init__ rt flag) text) = Ok r ->
                success r = true -> method r = "unicode"%string).
Proof.
  intros Hoff.
  assert (Huse : use_fallback (__init__ rt flag) && LANGDETECT_AVAILABLE rt = false).
  { unfold __init__. cbn [use_fallback].
    destruct Hoff as [-> | ->]; [reflexivity|].
    now rewrite !andb_false_r. }
  destruct (detect_run_cases rt (__init__ rt flag) text)
    as [(msg & Hval & Hrun)|(s & u & -> & Hv & Hu & Hrun)].
  - rewrite Hrun.
    rewrite (detect_invalid_run no_langdetect (__init__ no_langdetect true)
               text msg Hval).
    split; [reflexivity|].
    destruct text; cbn; repeat split; try discriminate;
      intros r [= <-]; discriminate.
  - rewrite Hrun.
    rewrite (detect_valid_run no_langdetect (__init__ no_langdetect true)
               s u Hv Hu).
    rewrite Huse. cbn [no_langdetect LANGDETECT_AVAILABLE __init__ use_fallback andb].
    destruct (fgt (u_confidence u) 70); cbn;
      repeat split; intros r [= <-]; reflexivity.
Qed.

(** X8.  Whitespace around a text does not change the verdict of
    [_validate_input]: the message, or the acceptance, is that of the text
    without the padding. *)
Theorem validation_ignores_padding (before s after : str) :
  blank before -> blank after ->
  LanguageDetector._validate_input (VStr (before ++ s ++ after))
  = LanguageDetector._validate_input (VStr s).
Proof.
  intros Hb Ha. cbn [LanguageDetector._validate_input].
  now rewrite strip_padding.
Qed.

(** ** What the script analysis looks at *)

Section ScriptAnalysis.

Lemma detect_by_unicode_of_counts (s1 s2 : str) :
  analyzable_count s1 = analyzable_count s2 ->
  target_count s1 = target_count s2 ->
  _detect_by_unicode s1 = _detect_by_unicode s2.
Proof.
  intros Ha Ht. unfold _detect_by_unicode.
  rewrite !scan_fold, Ha, Ht. reflexivity.
Qed.

Lemma is_mixed_language_of_counts (s1 s2 : str) (threshold : Q) :
  analyzable_count s1 = analyzable_count s2 ->
  target_count s1 = target_count s2 ->
  is_mixed_language s1 threshold = is_mixed_language s2 threshold.
Proof.
  intros Ha Ht. unfold is_mixed_language.
  rewrite (detect_by_unicode_of_counts s1 s2 Ha Ht).
  rewrite !sum_ones, !urdu_fold, Ha, Ht. reflexivity.
Qed.

(** [is_mixed_language] in closed form. *)
Lemma is_mixed_language_eq (s : str) (threshold : Q) :
  is_mixed_language s threshold =
    Ok (negb (analyzable_count s =? 0)
        && (fle threshold (script_ratio s)
            && fle (script_ratio s) (1 - threshold)%Q)).
Proof.
  unfold is_mixed_language.
  destruct (detect_by_unicode_total s) as [u ->]. cbn [Py.bind].
  rewrite sum_ones, urdu_fold, Z.add_0_l.
  destruct (analyzable_count s =? 0) eqn:E; [reflexivity|].
  apply Z.eqb_neq in E. rewrite truediv_ok by exact E. reflexivity.
Qed.

Lemma filter_permutation {A : Type} (keep : A -> bool) (xs ys : list A) :
  Permutation xs ys -> Permutation (filter keep xs) (filter keep ys).
Proof.
  induction 1 as [| x xs ys _ IH | x y xs | xs ys zs _ IH1 _ IH2]; cbn [filter].
  - constructor.
  - destruct (keep x); [now constructor | exact IH].
  - destruct (keep x), (keep y); try reflexivity. constructor.
  - now transitivity (filter keep ys).
Qed.

Lemma target_count_filter (s : str) :
  target_count s
  = Z.of_nat (List.length (filter target_script (filter analyzable s))).
Proof.
  unfold target_count. f_equal. f_equal.
  induction s as [|c s IH]; [reflexivity|]. cbn [filter].
  destruct (analyzable c); cbn [andb filter]; [|exact IH].
  destruct (target_script c); cbn [List.length]; now rewrite IH.
Qed.

(** X9.  The script analysis and [is_mixed_language] see a text only
    through its analyzable characters, and not through their order: two
    texts whose analyzable characters are the same up to a permutation get
    the same answers, wherever whitespace and punctuation stand. *)
Theorem analysis_ignores_skipped_and_order (s1 s2 : str) :
  Permutation (filter analyzable s1) (filter analyzable s2) ->
  _detect_by_unicode s1 = _detect_by_unicode s2
  /\ forall threshold,
       is_mixed_language s1 threshold = is_mixed_language s2 threshold.
Proof.
  intros Hp.
  assert (Ha : analyzable_count s1 = analyzable_count s2).
  { unfold analyzable_count. f_equal. now apply Permutation_length. }
  assert (Ht : target_count s1 = target_count s2).
  { rewrite !target_count_filter. f_equal.
    apply Permutation_length. now apply filter_permutation. }
  split.
  - now apply detect_by_unicode_of_counts.
  - intros threshold. now apply is_mixed_language_of_counts.
Qed.

Lemma isspace_outside_ranges (c : Z) :
  target_script c = true -> isspace c = false.
Proof.
  unfold target_script, URDU_UNICODE_RANGES. cbn [existsb fst snd].
  rewrite !orb_true_iff, !andb_true_iff, !Z.leb_le.
  intros [H|[H|[H|[H|H]]]]; try discriminate; unfold isspace;
    repeat apply orb_false_intro;
    try (apply Z.eqb_neq; lia);
    (apply andb_false_iff;
     first [ left; apply Z.leb_gt; lia | right; apply Z.leb_gt; lia ]).
Qed.

Lemma punctuation_outside_ranges (c : Z) :
  target_script c = true -> char_in c PUNCTUATION = false.
Proof.
  unfold target_script, URDU_UNICODE_RANGES. cbn [existsb fst snd].
  rewrite !orb_true_iff, !andb_true_iff, !Z.leb_le.
  intros [H|[H|[H|[H|H]]]]; try discriminate;
    unfold char_in, PUNCTUATION; cbn [existsb];
    repeat apply orb_false_intro; try reflexivity; apply Z.eqb_neq; lia.
Qed.

(** X10.  No character of the four ranges is skipped: whatever lies in
    them, Arabic punctuation and digits included, counts as an Urdu
    character, so the Urdu count is the number of characters in the
    ranges. *)
Theorem target_count_all_in_ranges (s : str) :
  target_count s = Z.of_nat (List.length (filter target_script s))
  /\ forall c, target_script c = true -> analyzable c = true.
Proof.
  assert (H : forall c, target_script c = true -> analyzable c = true).
  { intros c Hc. unfold analyzable.
    now rewrite (isspace_outside_ranges c Hc), (punctuation_outside_ranges c Hc). }
  split; [|exact H].
  unfold target_count. f_equal. f_equal.
  apply filter_ext. intros c.
  destruct (target_script c) eqn:Hc.
  - now rewrite (H c Hc).
  - apply andb_false_r.
Qed.

End ScriptAnalysis.

(** ** Texts of one script, and texts that are not mixed *)

Section Decisive.

Variable rt : Runtime.
Variable self : LanguageDetector.t.

Lemma ratio_zero (s : str) : target_count s = 0 -> (script_ratio s == 0)%Q.
Proof.
  intros H. unfold script_ratio, Qdiv. rewrite H. apply Qmult_0_l.
Qed.

Lemma ratio_one (s : str) :
  0 < analyzable_count s ->
  target_count s = analyzable_count s -> (script_ratio s == 1)%Q.
Proof.
  intros Hpos H. unfold script_ratio, Qdiv. rewrite H.
  apply Qmult_inv_r. intros E.
  assert (Hq : (0 < inject_Z (analyzable_count s))%Q)
    by (rewrite <- (Zlt_Qlt 0); exact Hpos).
  rewrite E in Hq. discriminate.
Qed.

(** A ratio below 21% or above 79% is accepted at once with the capped
    confidence. *)
Lemma detect_capped (s : str) :
  passes_validation (VStr s) ->
  0 < analyzable_count s ->
  (script_ratio s < 21 # 100)%Q \/ (79 # 100 < script_ratio s)%Q ->
  exists r,
    detect rt self (VStr s) = ([], Ok r)
    /\ method r = "unicode"%string
    /\ (confidence r == 99)%Q
    /\ (language r = "ur"%string <-> (79 # 100 < script_ratio s)%Q)
    /\ (language r = "en"%string <-> (script_ratio s < 21 # 100)%Q).
Proof.
  intros Hv Hpos Hr.
  destruct (Qlt_le_dec (3 # 10) (script_ratio s)) as [Hur|Hen].
  - pose proof (unicode_ur s Hur) as Hu.
    assert (H79 : (79 # 100 < script_ratio s)%Q) by (destruct Hr; lra).
    rewrite (detect_confident rt self s _ Hv Hu).
    + eexists. split; [reflexivity|]. split; [reflexivity|]. cbn.
      destruct (min_cases (script_ratio s * 100 + 20) 99) as [[Hm ->]|[Hm ->]].
      * exfalso. lra.
      * repeat split; auto; try lra; try discriminate;
          try (intros H; exfalso; lra).
    + cbn [u_confidence].
      destruct (min_cases (script_ratio s * 100 + 20) 99) as [[Hm ->]|[Hm ->]];
        lra.
  - pose proof (unicode_en s Hpos Hen) as Hu.
    assert (H21 : (script_ratio s < 21 # 100)%Q) by (destruct Hr; lra).
    rewrite (detect_confident rt self s _ Hv Hu).
    + eexists. split; [reflexivity|]. split; [reflexivity|]. cbn.
      destruct (min_cases (100 - script_ratio s * 100 + 20) 99)
        as [[Hm ->]|[Hm ->]].
      * exfalso. lra.
      * repeat split; auto; try lra; try discriminate;
          try (intros H; exfalso; lra).
    + cbn [u_confidence].
      destruct (min_cases (100 - script_ratio s * 100 + 20) 99)
        as [[Hm ->]|[Hm ->]]; lra.
Qed.

(** X11.  A text that passes validation, has an analyzable character and
    no character of the four ranges (any ASCII text, for one) is always
    [en] with confidence 99, from the script analysis alone: the library
    is not called. *)
Theorem no_target_character_is_english (s : str) :
  passes_validation (VStr s) ->
  0 < analyzable_count s ->
  Forall (fun c => target_script c = false) s ->
  exists r,
    detect rt self (VStr s) = ([], Ok r)
    /\ language r = "en"%string
    /\ method r = "unicode"%string
    /\ (confidence r == 99)%Q.
Proof.
  intros Hv Hpos Hall.
  assert (Ht : target_count s = 0).
  { unfold target_count. clear Hv Hpos.
    induction Hall as [|c s Hc _ IH]; [reflexivity|]. cbn [filter].
    now rewrite Hc, andb_false_r. }
  pose proof (ratio_zero s Ht) as R0.
  destruct (detect_capped s Hv Hpos) as (r & Hr & Hm & Hc & _ & Hen).
  - left. lra.
  - exists r. repeat split; auto. apply Hen. lra.
Qed.

(** X12.  A text that passes validation and whose analyzable characters
    all lie in the four ranges is always [ur] with confidence 99, from the
    script analysis alone. *)
Theorem all_target_is_urdu (s : str) :
  passes_validation (VStr s) ->
  0 < analyzable_count s ->
  Forall (fun c => analyzable c = true -> target_script c = true) s ->
  exists r,
    detect rt self (VStr s) = ([], Ok r)
    /\ language r = "ur"%string
    /\ method r = "unicode"%string
    /\ (confidence r == 99)%Q.
Proof.
  intros Hv Hpos Hall.
  assert (Ht : target_count s = analyzable_count s).
  { unfold target_count, analyzable_count. f_equal. f_equal.
    rewrite Forall_forall in Hall.
    clear Hv Hpos. induction s as [|c s IH]; [reflexivity|]. cbn [filter].
    assert (IH' : filter (fun c => analyzable c && target_script c) s
                  = filter analyzable s)
      by (apply IH; intros x Hx; apply Hall; now right).
    destruct (analyzable c) eqn:Ha; cbn [andb]; [|exact IH'].
    rewrite (Hall c (or_introl eq_refl) Ha). now rewrite IH'. }
  pose proof (ratio_one s Hpos Ht) as R1.
  destruct (detect_capped s Hv Hpos) as (r & Hr & Hm & Hc & Hur & _).
  - right. lra.
  - exists r. repeat split; auto. apply Hur. lra.
Qed.

(** X13.  What [is_mixed_language] calls not mixed at its default
    threshold, [detect] settles at once: when the text has an analyzable
    character the confidence is the capped 99 and the library is not
    called. *)
Theorem not_mixed_is_certain (s : str) :
  passes_validation (VStr s) ->
  0 < analyzable_count s ->
  is_mixed_language s 0.20 = Ok false ->
  exists r,
    detect rt self (VStr s) = ([], Ok r)
    /\ method r = "unicode"%string
    /\ (confidence r == 99)%Q.
Proof.
  intros Hv Hpos Hmix. rewrite is_mixed_language_eq in Hmix.
  injection Hmix as Hmix.
  assert (E : (analyzable_count s =? 0) = false) by (apply Z.eqb_neq; lia).
  rewrite E in Hmix. cbn [negb andb] in Hmix.
  apply andb_false_iff in Hmix.
  assert (Hr : (script_ratio s < 21 # 100)%Q \/ (79 # 100 < script_ratio s)%Q).
  { destruct Hmix as [H|H]; apply not_true_iff_false in H;
      rewrite fle_true in H; apply Qnot_le_lt in H; [left|right]; lra. }
  destruct (detect_capped s Hv Hpos Hr) as (r & Hrun & Hm & Hc & _).
  exists r. auto.
Qed.

End Decisive.

(** ** The threshold of [is_mixed_language] *)

Section MixedThreshold.

(** X14.  Lowering the threshold of [is_mixed_language] never turns a
    mixed text into one that is not mixed. *)
Theorem is_mixed_threshold_monotone (s : str) (lower threshold : Q) :
  (lower <= threshold)%Q ->
  is_mixed_language s threshold = Ok true ->
  is_mixed_language s lower = Ok true.
Proof.
  intros Hle. rewrite !is_mixed_language_eq. intros [= H]. f_equal.
  apply andb_true_iff in H as [Hn H].
  apply andb_true_iff in H as [H1 H2].
  rewrite fle_true in H1, H2.
  rewrite Hn. cbn [andb]. apply andb_true_iff.
  rewrite !fle_true. split; lra.
Qed.

(** X15.  With a threshold above one half no text is mixed, and with a
    threshold of zero or less every text that has an analyzable character
    is, a text in one script included. *)
Theorem is_mixed_degenerate_thresholds (s : str) (threshold : Q) :
  ((1 # 2 < threshold)%Q -> is_mixed_language s threshold = Ok false)
  /\ ((threshold <= 0)%Q -> 0 < analyzable_count s ->
      is_mixed_language s threshold = Ok true).
Proof.
  rewrite is_mixed_language_eq. split.
  - intros Ht. f_equal.
    destruct (analyzable_count s =? 0); [reflexivity|]. cbn [negb andb].
    apply not_true_iff_false. rewrite andb_true_iff, !fle_true. lra.
  - intros Ht Hpos. f_equal.
    pose proof (ratio_bounds s Hpos) as [R0 R1].
    assert (E : (analyzable_count s =? 0) = false) by (apply Z.eqb_neq; lia).
    rewrite E. cbn [negb andb]. rewrite andb_true_iff, !fle_true. lra.
Qed.

End MixedThreshold.

(** X16.  On every string [quick_detect] returns, with the library calls
    of [detect_language] and no other: the language of the full result
    when that succeeded, [en] when it failed, and in both cases one of the
    supported codes. *)
Theorem quick_detect_on_str (rt : Runtime) (s : str) :
  exists r,
    outcome (detect_language rt (VStr s)) = Ok r
    /\ outcome (quick_detect rt (VStr s))
       = Ok (if success r then language r else "en"%string)
    /\ calls (quick_detect rt (VStr s)) = calls (detect_language rt (VStr s))
    /\ In (if success r then language r else "en"%string)
          get_supported_languages.
Proof.
  destruct (detect_str_returns rt (__init__ rt true) s) as (r & Hr & Hl).
  exists r. unfold quick_detect, detect_language.
  split; [exact Hr|].
  split; [now rewrite (outcome_rbind _ _ r Hr)|].
  split.
  - unfold calls, rbind. unfold outcome in Hr. rewrite Hr.
    cbn [fst ret]. apply app_nil_r.
  - apply supported_language.
    destruct (success r); [now apply Hl | now left].
Qed.

(** * Properties of the text input handler *)

(** ** Stripping, again *)

Section StripShape.

Lemma rstrip_cases (s : str) :
  (blank s /\ rstrip s = [])
  \/ (exists rest c after,
        blank after /\ isspace c = false
        /\ s = rest ++ c :: after /\ rstrip s = rest ++ [c]).
Proof.
  unfold rstrip.
  destruct (lstrip_cases (rev s))
    as [[Hb E]|(before & c & rest & Hb & Hc & E1 & E2)].
  - left. rewrite E. split; [|reflexivity].
    rewrite <- (rev_involutive s). now apply blank_rev.
  - right. exists (rev rest), c, (rev before).
    split; [now apply blank_rev|]. split; [exact Hc|]. split.
    + rewrite <- (rev_involutive s), E1, rev_app_distr. cbn [rev].
      now rewrite <- app_assoc.
    + rewrite E2. reflexivity.
Qed.

(** [strip] cuts a blank prefix and a blank suffix, and what it leaves is
    empty or has a first and a last character that are not whitespace. *)
Lemma strip_decompose (s : str) :
  exists before after,
    blank before /\ blank after /\ s = before ++ strip s ++ after
    /\ (strip s = []
        \/ exists first middle, isspace first = false
             /\ strip s = first :: middle /\ lstrip (strip s) = strip s).
Proof.
  unfold strip.
  destruct (lstrip_cases s)
    as [[Hb ->]|(before & c & rest & Hb & Hc & -> & ->)].
  - exists s, []. cbn. repeat split; auto; try constructor.
    now rewrite app_nil_r.
  - destruct (rstrip_cases (c :: rest))
      as [[Hbl _]|(rest' & c' & after & Ha & Hc' & E1 & E2)].
    + exfalso. inversion Hbl; congruence.
    + exists before, after. rewrite E2. split; [exact Hb|].
      split; [exact Ha|]. split.
      * rewrite E1. now rewrite <- !app_assoc.
      * right. destruct rest' as [|c0 rest'].
        -- cbn in E1. injection E1 as <- _.
           exists c, []. cbn [app lstrip]. rewrite Hc. auto.
        -- cbn in E1. injection E1 as <- _.
           exists c, (rest' ++ [c']). cbn [app lstrip]. rewrite Hc. auto.
Qed.

Lemma strip_idempotent (s : str) : stripped (strip s).
Proof.
  unfold stripped.
  destruct (strip_decompose s) as (before & after & Hb & Ha & E & _).
  rewrite E at 2. symmetry. now apply strip_padding.
Qed.

Lemma Forall_strip (P : Z -> Prop) (s : str) :
  Forall P s -> Forall P (strip s).
Proof.
  intros H.
  destruct (strip_decompose s) as (before & after & _ & _ & E & _).
  rewrite E in H. apply Forall_app in H as [_ H].
  now apply Forall_app in H as [H _].
Qed.

Lemma stripped_head (c : Z) (s : str) :
  stripped (c :: s) -> isspace c = false.
Proof.
  unfold stripped. intros H.
  destruct (strip_decompose (c :: s)) as (_ & _ & _ & _ & _ & [E|E]).
  - rewrite E in H. discriminate.
  - destruct E as (first & middle & Hf & E & _).
    rewrite E in H. now injection H as <- _.
Qed.

End StripShape.

(** ** Runs of spaces *)

Section Spaces.

Lemma single_spaced_app (a b : str) :
  single_spaced (a ++ b) -> single_spaced a /\ single_spaced b.
Proof.
  induction a as [|c a IH]; cbn [app].
  - intros H. split; [exact I | exact H].
  - intros [Hc H]. destruct (IH H) as [Ha Hb]. split; [|exact Hb].
    split; [|exact Ha].
    destruct a as [|next a]; [exact I|]. exact Hc.
Qed.

Lemma single_spaced_strip (s : str) :
  single_spaced s -> single_spaced (strip s).
Proof.
  intros H.
  destruct (strip_decompose s) as (before & after & _ & _ & E & _).
  rewrite E in H. apply single_spaced_app in H as [_ H].
  now apply single_spaced_app in H as [H _].
Qed.

Lemma sub_spaces_single_spaced (s : str) : single_spaced (TextInputHandler.sub_spaces s).
Proof.
  induction s as [|c rest IH]; [exact I|].
  cbn [TextInputHandler.sub_spaces].
  destruct (c =? 32) eqn:Ec.
  - destruct rest as [|next rest']; [cbn; auto|].
    destruct (next =? 32) eqn:En; [exact IH|].
    split; [|exact IH].
    cbn [TextInputHandler.sub_spaces]. rewrite En.
    apply Z.eqb_neq in En. intros [_ H]. contradiction.
  - apply Z.eqb_neq in Ec. split; [|exact IH].
    destruct (TextInputHandler.sub_spaces rest); [exact I|].
    intros [H _]. contradiction.
Qed.

Lemma sub_spaces_fixed (s : str) :
  single_spaced s -> TextInputHandler.sub_spaces s = s.
Proof.
  induction s as [|c rest IH]; [reflexivity|].
  intros [Hc H]. cbn [TextInputHandler.sub_spaces].
  rewrite (IH H).
  destruct (c =? 32) eqn:Ec; [|reflexivity].
  apply Z.eqb_eq in Ec. subst c.
  destruct rest as [|next rest']; [reflexivity|].
  destruct (next =? 32) eqn:En; [|reflexivity].
  apply Z.eqb_eq in En. exfalso. apply Hc. auto.
Qed.

Lemma Forall_sub_spaces (P : Z -> Prop) (s : str) :
  Forall P s -> Forall P (TextInputHandler.sub_spaces s).
Proof.
  induction 1 as [|c rest Hc _ IH]; [constructor|].
  cbn [TextInputHandler.sub_spaces].
  destruct (c =? 32) eqn:Ec.
  - apply Z.eqb_eq in Ec. subst c.
    destruct rest as [|next rest']; [now repeat constructor|].
    destruct (next =? 32); [exact IH | now constructor].
  - now constructor.
Qed.

End Spaces.

(** ** Normalising and cleaning *)

Section Normalising.

Variable rt : TextRuntime.

Lemma replace_absent (old new : Z) (s : str) :
  Forall (fun c => c <> old) s -> TextInputHandler.replace old new s = s.
Proof.
  unfold TextInputHandler.replace.
  induction 1 as [|c rest Hc _ IH]; [reflexivity|]. cbn [map].
  apply Z.eqb_neq in Hc. now rewrite Hc, IH.
Qed.

Lemma filter_all {A : Type} (f : A -> bool) (l : list A) :
  Forall (fun x => f x = true) l -> filter f l = l.
Proof.
  induction 1 as [|x l Hx _ IH]; [reflexivity|]. cbn [filter].
  now rewrite Hx, IH.
Qed.

Lemma Forall_filter_kept {A : Type} (f : A -> bool) (l : list A) :
  Forall (fun x => f x = true) (filter f l).
Proof.
  apply Forall_forall. intros x Hx. now apply filter_In in Hx.
Qed.

(** X17.  What [_normalize_whitespace] returns holds no newline, carriage
    return or tab, no two spaces in a row and no whitespace at either end;
    normalising it again changes nothing. *)
Theorem normalize_whitespace_shape (s : str) :
  Forall (fun c => c <> 10 /\ c <> 13 /\ c <> 9)
         (TextInputHandler._normalize_whitespace s)
  /\ single_spaced (TextInputHandler._normalize_whitespace s)
  /\ stripped (TextInputHandler._normalize_whitespace s)
  /\ TextInputHandler._normalize_whitespace
       (TextInputHandler._normalize_whitespace s)
     = TextInputHandler._normalize_whitespace s.
Proof.
  assert (Hno : Forall (fun c => c <> 10 /\ c <> 13 /\ c <> 9)
                       (TextInputHandler._normalize_whitespace s)).
  { unfold TextInputHandler._normalize_whitespace.
    apply Forall_strip, Forall_sub_spaces.
    unfold TextInputHandler.replace. rewrite !map_map.
    apply Forall_map, Forall_forall. intros c _.
    destruct (c =? 10) eqn:E10; cbn.
    - repeat split; discriminate.
    - apply Z.eqb_neq in E10.
      destruct (c =? 13) eqn:E13; cbn.
      + repeat split; discriminate.
      + apply Z.eqb_neq in E13.
        destruct (c =? 9) eqn:E9.
        * repeat split; discriminate.
        * apply Z.eqb_neq in E9. auto. }
  assert (Hss : single_spaced (TextInputHandler._normalize_whitespace s))
    by apply single_spaced_strip, sub_spaces_single_spaced.
  assert (Hst : stripped (TextInputHandler._normalize_whitespace s))
    by apply strip_idempotent.
  repeat split; try assumption.
  set (t := TextInputHandler._normalize_whitespace s) in *.
  unfold TextInputHandler._normalize_whitespace at 1.
  rewrite (replace_absent 10 32 t)
    by (eapply Forall_impl; [|exact Hno]; cbn; tauto).
  rewrite (replace_absent 13 32 t)
    by (eapply Forall_impl; [|exact Hno]; cbn; tauto).
  rewrite (replace_absent 9 32 t)
    by (eapply Forall_impl; [|exact Hno]; cbn; tauto).
  rewrite (sub_spaces_fixed t Hss). exact Hst.
Qed.

(** X18.  What [_clean_text] returns is made of characters that its
    pattern keeps (word characters, whitespace, the nine punctuation marks
    and the four Arabic ranges), with no two spaces in a row and no
    whitespace at either end; cleaning it again changes nothing. *)
Theorem clean_text_shape (s : str) :
  Forall (fun c => TextInputHandler.kept rt c = true)
         (TextInputHandler._clean_text rt s)
  /\ single_spaced (TextInputHandler._clean_text rt s)
  /\ stripped (TextInputHandler._clean_text rt s)
  /\ TextInputHandler._clean_text rt (TextInputHandler._clean_text rt s)
     = TextInputHandler._clean_text rt s.
Proof.
  assert (Hk : Forall (fun c => TextInputHandler.kept rt c = true)
                      (TextInputHandler._clean_text rt s)).
  { unfold TextInputHandler._clean_text.
    apply Forall_strip, Forall_sub_spaces, Forall_filter_kept. }
  assert (Hss : single_spaced (TextInputHandler._clean_text rt s))
    by apply single_spaced_strip, sub_spaces_single_spaced.
  assert (Hst : stripped (TextInputHandler._clean_text rt s))
    by apply strip_idempotent.
  repeat split; try assumption.
  set (t := TextInputHandler._clean_text rt s) in *.
  unfold TextInputHandler._clean_text at 1.
  rewrite (filter_all _ t Hk), (sub_spaces_fixed t Hss). exact Hst.
Qed.

End Normalising.

(** ** Counting words *)

Section Words.

Lemma lstrip_no_space (s : str) :
  Forall (fun c => isspace c = false) s -> lstrip s = s.
Proof.
  destruct 1 as [|c s Hc _]; [reflexivity|]. cbn [lstrip]. now rewrite Hc.
Qed.

Lemma strip_no_space (s : str) :
  Forall (fun c => isspace c = false) s -> strip s = s.
Proof.
  intros H. unfold strip, rstrip. rewrite (lstrip_no_space s H).
  rewrite lstrip_no_space by now apply Forall_rev.
  apply rev_involutive.
Qed.

(** The tokens of [split] are not empty and hold no whitespace. *)
Lemma split_from_tokens (s word : str) :
  Forall (fun c => isspace c = false) word ->
  Forall (fun token => token <> [] /\ Forall (fun c => isspace c = false) token)
         (TextInputHandler.split_from word s).
Proof.
  revert word. induction s as [|c rest IH]; intros word Hw;
    cbn [TextInputHandler.split_from].
  - destruct word as [|w word']; constructor; [|constructor].
    split; [|now apply Forall_rev].
    intros E. apply (f_equal (@List.length Z)) in E.
    rewrite length_rev in E. discriminate.
  - destruct (isspace c) eqn:Hc.
    + destruct word as [|w word']; [now apply IH|].
      constructor; [|apply IH; constructor].
      split; [|now apply Forall_rev].
      intros E. apply (f_equal (@List.length Z)) in E.
      rewrite length_rev in E. discriminate.
    + apply IH. now constructor.
Qed.

Lemma split_from_length (s word : str) :
  List.length (TextInputHandler.split_from word s)
  = match word with
    | [] => word_starts true s
    | _ => S (word_starts false s)
    end.
Proof.
  revert word. induction s as [|c rest IH]; intros word;
    cbn [TextInputHandler.split_from word_starts].
  - now destruct word.
  - destruct (isspace c) eqn:Hc.
    + destruct word as [|w word']; [apply IH|].
      cbn [List.length]. now rewrite IH.
    + rewrite IH. now destruct word.
Qed.

Lemma count_words_starts (s : str) :
  TextInputHandler._count_words s = Z.of_nat (word_starts true s).
Proof.
  unfold TextInputHandler._count_words, TextInputHandler.split.
  rewrite filter_all.
  - now rewrite split_from_length.
  - eapply Forall_impl; [|apply (split_from_tokens s []); constructor].
    intros token [Hne Hns]. cbn beta. rewrite (strip_no_space token Hns).
    apply negb_true_iff, Z.eqb_neq. unfold len.
    destruct token; [contradiction | cbn [List.length]; lia].
Qed.

Lemma word_starts_map (f : Z -> Z) (s : str) (b : bool) :
  (forall c, isspace (f c) = isspace c) ->
  word_starts b (map f s) = word_starts b s.
Proof.
  intros Hf. revert b. induction s as [|c rest IH]; intros b; [reflexivity|].
  cbn [map word_starts]. now rewrite Hf, !IH.
Qed.

Lemma word_starts_sub_spaces (s : str) (b : bool) :
  word_starts b (TextInputHandler.sub_spaces s) = word_starts b s.
Proof.
  revert b. induction s as [|c rest IH]; intros b; [reflexivity|].
  cbn [TextInputHandler.sub_spaces].
  destruct (c =? 32) eqn:Ec.
  - apply Z.eqb_eq in Ec. subst c.
    destruct rest as [|next rest']; [reflexivity|].
    destruct (next =? 32) eqn:En.
    + apply Z.eqb_eq in En. subst next. rewrite IH. reflexivity.
    + cbn [word_starts]. change (isspace 32) with true. cbv iota.
      now rewrite IH.
  - cbn [word_starts]. now rewrite !IH.
Qed.

Lemma word_starts_lstrip (s : str) :
  word_starts true (lstrip s) = word_starts true s.
Proof.
  induction s as [|c rest IH]; [reflexivity|]. cbn [lstrip word_starts].
  destruct (isspace c) eqn:Hc; [exact IH|].
  cbn [word_starts]. now rewrite Hc.
Qed.

Lemma word_starts_blank (s : str) (b : bool) : blank s -> word_starts b s = 0%nat.
Proof.
  intros H. revert b. induction H as [|c rest Hc _ IH]; intros b; [reflexivity|].
  cbn [word_starts]. now rewrite Hc.
Qed.

Lemma word_starts_app_blank (s after : str) (b : bool) :
  blank after -> word_starts b (s ++ after) = word_starts b s.
Proof.
  intros Ha. revert b. induction s as [|c rest IH]; intros b; cbn [app word_starts].
  - now apply word_starts_blank.
  - now rewrite !IH.
Qed.

Lemma word_starts_strip (s : str) :
  word_starts true (strip s) = word_starts true s.
Proof.
  unfold strip. rewrite <- (word_starts_lstrip s).
  destruct (rstrip_cases (lstrip s))
    as [[Hb ->]|(rest & c & after & Ha & Hc & E1 & ->)].
  - now rewrite (word_starts_blank _ _ Hb).
  - rewrite E1.
    change (rest ++ c :: after) with (rest ++ [c] ++ after).
    rewrite app_assoc.
    now rewrite (word_starts_app_blank (rest ++ [c]) after true Ha).
Qed.

Lemma word_starts_zero (s : str) : word_starts true s = 0%nat <-> blank s.
Proof.
  unfold blank. induction s as [|c rest IH]; cbn [word_starts].
  - split; [constructor | reflexivity].
  - destruct (isspace c) eqn:Hc.
    + rewrite IH. split; [now constructor | now inversion 1].
    + split; [discriminate|]. inversion 1. congruence.
Qed.

(** X19.  [_count_words] is 0 exactly on a text made of whitespace only,
    and normalising the whitespace does not change the count. *)
Theorem count_words_whitespace (s : str) :
  (TextInputHandler._count_words s = 0 <-> blank s)
  /\ TextInputHandler._count_words (TextInputHandler._normalize_whitespace s)
     = TextInputHandler._count_words s.
Proof.
  rewrite !count_words_starts. split.
  - rewrite <- word_starts_zero. lia.
  - f_equal. unfold TextInputHandler._normalize_whitespace.
    rewrite word_starts_strip, word_starts_sub_spaces.
    unfold TextInputHandler.replace.
    rewrite !word_starts_map; [reflexivity| | |];
      intros c;
      match goal with
      | |- context [c =? ?k] =>
          destruct (Z.eqb_spec c k) as [->|]; reflexivity
      end.
Qed.

End Words.

(** ** The processing pipeline *)

Section Pipeline.

Variable rt : TextRuntime.

(** A validation message of the handler is never the empty string. *)
Lemma handler_message_truthy (text : value) (msg : string) :
  TextInputHandler._validate_input text = Some msg ->
  truthy (Some msg) = true.
Proof.
  destruct text as [| n | items | s]; cbn [TextInputHandler._validate_input].
  - intros [= <-]. reflexivity.
  - intros [= <-]. reflexivity.
  - intros [= <-]. reflexivity.
  - destruct (len (strip s) =? 0); [intros [= <-]; reflexivity|].
    destruct (len s >? TextInputHandler.MAX_TEXT_LENGTH);
      [intros [= <-]; reflexivity | discriminate].
Qed.

(** The text that [process] validates last. *)
Lemma process_cases (text : value) :
  (exists msg,
     TextInputHandler._validate_input text = Some msg
     /\ TextInputHandler.process rt text
        = TextInputHandler._create_error_result text msg)
  \/ (exists s,
        text = VStr s
        /\ TextInputHandler._validate_input text = None
        /\ let cleaned :=
             TextInputHandler._clean_text rt
               (TextInputHandler._normalize_whitespace
                  (TextInputHandler._fix_encoding rt s)) in
           (cleaned = []
            /\ TextInputHandler.process rt text
               = TextInputHandler._create_error_result text
                   "Text too short after cleaning (minimum 1 character)")
           \/ (cleaned <> []
               /\ TextInputHandler.process rt text
                  = {| TextInputHandler.success := true;
                       TextInputHandler.text := cleaned;
                       TextInputHandler.original_text := text;
                       TextInputHandler.char_count := len cleaned;
                       TextInputHandler.word_count :=
                         TextInputHandler._count_words cleaned;
                       TextInputHandler.error := None |})).
Proof.
  destruct (TextInputHandler._validate_input text) as [msg|] eqn:Hval.
  - left. exists msg. split; [reflexivity|].
    unfold TextInputHandler.process. rewrite Hval.
    now rewrite (handler_message_truthy text msg Hval).
  - right. destruct text as [| n | items | s]; try discriminate.
    exists s. split; [reflexivity|]. split; [reflexivity|].
    unfold TextInputHandler.process. rewrite Hval. cbn [truthy].
    set (cleaned := TextInputHandler._clean_text rt _). cbn zeta.
    unfold TextInputHandler._validate_processed_text,
      TextInputHandler.MIN_TEXT_LENGTH.
    destruct cleaned as [|c cleaned'] eqn:E.
    + left. split; reflexivity.
    + right. split; [discriminate|].
      assert (L : (len (c :: cleaned') <? 1) = false).
      { apply Z.ltb_ge. unfold len. cbn [List.length]. lia. }
      rewrite L. reflexivity.
Qed.

(** X20.  [process] always hands back its input as [original_text].  A
    successful result carries no error and a text that is not empty, with
    no whitespace at either end, no two spaces in a row and only
    characters that the cleaning pattern keeps; [char_count] is the length
    of that text and there is at least one word.  A failed result carries
    an error, the empty text and zero counts. *)
Theorem process_result_invariant (text : value) :
  let r := TextInputHandler.process rt text in
  TextInputHandler.original_text r = text
  /\ (TextInputHandler.success r = true ->
      TextInputHandler.error r = None
      /\ (exists s, text = VStr s)
      /\ TextInputHandler.char_count r = len (TextInputHandler.text r)
      /\ 1 <= TextInputHandler.char_count r
      /\ 1 <= TextInputHandler.word_count r
      /\ stripped (TextInputHandler.text r)
      /\ single_spaced (TextInputHandler.text r)
      /\ Forall (fun c => TextInputHandler.kept rt c = true)
                (TextInputHandler.text r))
  /\ (TextInputHandler.success r = false ->
      TextInputHandler.error r <> None
      /\ TextInputHandler.text r = []
      /\ TextInputHandler.char_count r = 0
      /\ TextInputHandler.word_count r = 0).
Proof.
  cbv zeta.
  destruct (process_cases text)
    as [(msg & _ & ->)|(s & -> & _ & [[_ ->]|[Hne ->]])];
    cbn [TextInputHandler._create_error_result TextInputHandler.success
         TextInputHandler.text TextInputHandler.original_text
         TextInputHandler.char_count TextInputHandler.word_count
         TextInputHandler.error].
  - repeat split; try discriminate.
  - repeat split; try discriminate.
  - split; [reflexivity|]. split; [|discriminate]. intros _.
    set (cleaned := TextInputHandler._clean_text rt _) in *.
    destruct (clean_text_shape rt
                (TextInputHandler._normalize_whitespace
                   (TextInputHandler._fix_encoding rt s)))
      as (Hk & Hss & Hst & _).
    fold cleaned in Hk, Hss, Hst.
    split; [reflexivity|]. split; [eauto|]. split; [reflexivity|].
    destruct cleaned as [|c cleaned']; [contradiction|].
    split; [unfold len; cbn [List.length]; lia|].
    split; [|auto].
    rewrite count_words_starts. cbn [word_starts].
    rewrite (stripped_head c cleaned' Hst). lia.
Qed.

(** X21.  Whatever [validate_only] rejects, [process] rejects with the
    same message.  What [validate_only] accepts is a string, and [process]
    then fails only when the cleaning leaves nothing, with the message
    about the text being too short. *)
Theorem process_agrees_with_validate_only (text : value) :
  (forall msg,
     TextInputHandler.validate_only text = (false, Some msg) ->
     TextInputHandler.process rt text
     = TextInputHandler._create_error_result text msg)
  /\ (TextInputHandler.validate_only text = (true, None) ->
      exists s,
        text = VStr s
        /\ (TextInputHandler.success (TextInputHandler.process rt text) = false
            <-> TextInputHandler._clean_text rt
                  (TextInputHandler._normalize_whitespace
                     (TextInputHandler._fix_encoding rt s)) = [])
        /\ (TextInputHandler.success (TextInputHandler.process rt text) = false ->
            TextInputHandler.error (TextInputHandler.process rt text)
            = Some "Text too short after cleaning (minimum 1 character)"%string))
  /\ (TextInputHandler.validate_only text = (true, None)
      \/ exists msg, TextInputHandler.validate_only text = (false, Some msg)).
Proof.
  unfold TextInputHandler.validate_only.
  destruct (process_cases text)
    as [(msg & Hval & Hrun)|(s & -> & Hval & Hrun)]; rewrite Hval.
  - split; [|split].
    + intros msg' [= <-]. exact Hrun.
    + discriminate.
    + right. eauto.
  - split; [|split].
    + discriminate.
    + intros _. exists s. split; [reflexivity|].
      cbv zeta in Hrun. destruct Hrun as [[E ->]|[Hne ->]]; cbn.
      * repeat split; auto.
      * repeat split; try discriminate. intros E. contradiction.
    + now left.
Qed.

(** X22.  The detector strips nothing from a text that [process] returned:
    it accepts that text exactly when the text has at least 3 characters,
    and rejects the shorter ones, which [process] let through, as too
    short. *)
Theorem processed_text_for_detector (text : value) :
  TextInputHandler.success (TextInputHandler.process rt text) = true ->
  let r := TextInputHandler.process rt text in
  strip (TextInputHandler.text r) = TextInputHandler.text r
  /\ (passes_validation (VStr (TextInputHandler.text r))
      <-> 3 <= TextInputHandler.char_count r)
  /\ (TextInputHandler.char_count r < 3 ->
      LanguageDetector._validate_input (VStr (TextInputHandler.text r))
      = Some "Text too short for reliable detection (minimum 3 characters)"%string).
Proof.
  intros Hs. cbv zeta.
  destruct (process_result_invariant text) as (_ & Hok & _).
  destruct (Hok Hs) as (_ & _ & Hc & H1 & _ & Hst & _).
  unfold stripped in Hst. split; [exact Hst|].
  unfold passes_validation. cbn [LanguageDetector._validate_input].
  rewrite Hst, <- Hc.
  assert (E0 : (TextInputHandler.char_count (TextInputHandler.process rt text) =? 0)
               = false) by (apply Z.eqb_neq; lia).
  rewrite E0.
  destruct (Z.ltb_spec (TextInputHandler.char_count
                          (TextInputHandler.process rt text)) 3) as [Hlt|Hge].
  - split; [|auto]. split; [discriminate | lia].
  - split; [|lia]. split; auto.
Qed.

End Pipeline.

(** ** Normalising and cleaning, seen by the script analysis *)

Section CleaningAndScript.

Variable rt : TextRuntime.

Lemma filter_blank (p : Z -> bool) (s : str) :
  (forall c, p c = true -> isspace c = false) ->
  blank s -> filter p s = [].
Proof.
  intros Hp. induction 1 as [|c rest Hc _ IH]; [reflexivity|]. cbn [filter].
  destruct (p c) eqn:E; [|exact IH].
  apply Hp in E. congruence.
Qed.

Lemma filter_strip (p : Z -> bool) (s : str) :
  (forall c, p c = true -> isspace c = false) ->
  filter p (strip s) = filter p s.
Proof.
  intros Hp.
  destruct (strip_decompose s) as (before & after & Hb & Ha & E & _).
  rewrite E at 2. rewrite !filter_app.
  rewrite (filter_blank p before Hp Hb), (filter_blank p after Hp Ha).
  now rewrite app_nil_r.
Qed.

Lemma filter_sub_spaces (p : Z -> bool) (s : str) :
  p 32 = false ->
  filter p (TextInputHandler.sub_spaces s) = filter p s.
Proof.
  intros H32. induction s as [|c rest IH]; [reflexivity|].
  cbn [TextInputHandler.sub_spaces].
  destruct (c =? 32) eqn:Ec.
  - apply Z.eqb_eq in Ec. subst c. cbn [filter]. rewrite H32.
    destruct rest as [|next rest']; [cbn; now rewrite H32|].
    destruct (next =? 32); [exact IH|].
    cbn [filter]. rewrite H32. exact IH.
  - cbn [filter]. now rewrite IH.
Qed.

Lemma filter_replace (p : Z -> bool) (old new : Z) (s : str) :
  p old = false -> p new = false ->
  filter p (TextInputHandler.replace old new s) = filter p s.
Proof.
  intros Ho Hn. unfold TextInputHandler.replace.
  induction s as [|c rest IH]; [reflexivity|]. cbn [map filter].
  destruct (Z.eqb_spec c old) as [->|_].
  - now rewrite Hn, Ho.
  - now rewrite IH.
Qed.

Lemma filter_normalize (p : Z -> bool) (s : str) :
  (forall c, p c = true -> isspace c = false) ->
  filter p (TextInputHandler._normalize_whitespace s) = filter p s.
Proof.
  intros Hp.
  assert (Hsp : forall c, isspace c = true -> p c = false).
  { intros c Hc. destruct (p c) eqn:E; [|reflexivity].
    apply Hp in E. congruence. }
  unfold TextInputHandler._normalize_whitespace.
  rewrite filter_strip by exact Hp.
  rewrite filter_sub_spaces by now apply Hsp.
  rewrite !filter_replace by now apply Hsp.
  reflexivity.
Qed.

Lemma filter_filter_implied {A : Type} (p q : A -> bool) (l : list A) :
  (forall x, p x = true -> q x = true) ->
  filter p (filter q l) = filter p l.
Proof.
  intros Hpq. induction l as [|x l IH]; [reflexivity|]. cbn [filter].
  destruct (q x) eqn:Eq; cbn [filter].
  - now rewrite IH.
  - destruct (p x) eqn:Ep; [|exact IH].
    apply Hpq in Ep. congruence.
Qed.

Lemma filter_filter_length {A : Type} (p q : A -> bool) (l : list A) :
  (List.length (filter p (filter q l)) <= List.length (filter p l))%nat.
Proof.
  induction l as [|x l IH]; [reflexivity|]. cbn [filter].
  destruct (q x), (p x) eqn:Ep; cbn [filter List.length];
    rewrite ?Ep; cbn [List.length]; lia.
Qed.

Lemma analyzable_not_space (c : Z) : analyzable c = true -> isspace c = false.
Proof.
  unfold analyzable. intros H. apply andb_true_iff in H as [H _].
  now apply negb_true_iff.
Qed.

Lemma target_is_kept (c : Z) :
  target_script c = true -> TextInputHandler.kept rt c = true.
Proof.
  unfold target_script, URDU_UNICODE_RANGES, TextInputHandler.kept.
  cbn [existsb fst snd]. rewrite !orb_true_iff. intuition discriminate.
Qed.

(** X23.  Normalising the whitespace changes neither of the two counts of
    the script analysis, so the analysis of the normalised text is that of
    the raw text.  Cleaning keeps every character of the Arabic ranges and
    can only remove other analyzable characters, so it never lowers the
    script ratio. *)
Theorem cleaning_and_script_analysis (s : str) :
  _detect_by_unicode (TextInputHandler._normalize_whitespace s)
  = _detect_by_unicode s
  /\ target_count (TextInputHandler._clean_text rt s) = target_count s
  /\ analyzable_count (TextInputHandler._clean_text rt s) <= analyzable_count s
  /\ (0 < analyzable_count (TextInputHandler._clean_text rt s) ->
      (script_ratio s <= script_ratio (TextInputHandler._clean_text rt s))%Q).
Proof.
  assert (Hp : forall c, analyzable c && target_script c = true ->
                         isspace c = false).
  { intros c H. apply andb_true_iff in H as [H _].
    now apply analyzable_not_space. }
  assert (Ht : target_count (TextInputHandler._clean_text rt s) = target_count s).
  { unfold target_count, TextInputHandler._clean_text. f_equal. f_equal.
    rewrite filter_strip by exact Hp.
    rewrite filter_sub_spaces by reflexivity.
    apply filter_filter_implied. intros c H.
    apply andb_true_iff in H as [_ H]. now apply target_is_kept. }
  assert (Ha : analyzable_count (TextInputHandler._clean_text rt s)
               <= analyzable_count s).
  { unfold analyzable_count, TextInputHandler._clean_text.
    rewrite filter_strip by exact analyzable_not_space.
    rewrite filter_sub_spaces by reflexivity.
    pose proof (filter_filter_length analyzable (TextInputHandler.kept rt) s).
    lia. }
  split; [|split; [exact Ht|split; [exact Ha|]]].
  - apply detect_by_unicode_of_counts.
    + unfold analyzable_count.
      now rewrite filter_normalize by exact analyzable_not_space.
    + unfold target_count. now rewrite filter_normalize by exact Hp.
  - intros Hpos. unfold script_ratio. rewrite Ht.
    pose proof (counts_bounds s) as [Hlo Hhi].
    destruct (analyzable_count (TextInputHandler._clean_text rt s))
      as [|p'|p'] eqn:E'; try lia.
    destruct (analyzable_count s) as [|p|p] eqn:E; try lia.
    unfold Qle, Qdiv, Qmult, Qinv, inject_Z. cbn.
    nia.
Qed.

End CleaningAndScript.

(** * Instances *)

Lemma detect_language_closed_set_witness :
  let rt := langdetect_saying "fa" in
  let r := library_accepted (library_answer "fa") pakistan_zindabad in
  outcome (detect rt (__init__ rt true) (VStr pakistan_zindabad)) = Ok r
  /\ success r = true
  /\ In (language r) get_supported_languages.
Proof.
  cbv zeta. split; [reflexivity|]. split; [reflexivity|].
  apply (detect_language_closed_set (langdetect_saying "fa")
           (__init__ (langdetect_saying "fa") true) (VStr pakistan_zindabad));
    reflexivity.
Defined.

Lemma detect_confidence_bounds_witness :
  let rt := langdetect_saying "fa" in
  let r := library_accepted (library_answer "fa") pakistan_zindabad in
  outcome (detect rt (__init__ rt true) (VStr pakistan_zindabad)) = Ok r
  /\ success r = true
  /\ (50 <= confidence r <= 99)%Q.
Proof.
  cbv zeta. split; [reflexivity|]. split; [reflexivity|].
  apply (detect_confidence_bounds (langdetect_saying "fa")
           (__init__ (langdetect_saying "fa") true) (VStr pakistan_zindabad));
    reflexivity.
Defined.

Lemma detect_sample_and_count_witness :
  let text := text_of "  Hello World  " in
  let r := unicode_accepted {| u_language := "en"; u_confidence := 99 |} text in
  outcome (detect no_langdetect (__init__ no_langdetect true) (VStr text)) = Ok r
  /\ success r = true
  /\ exists s,
       VStr text = VStr s
       /\ text_sample r = firstn 100 s
       /\ char_count r = len s
       /\ 3 <= len (strip s) <= char_count r
       /\ len (text_sample r) = Z.min 100 (char_count r).
Proof.
  cbv zeta. split; [reflexivity|]. split; [reflexivity|].
  apply (detect_sample_and_count no_langdetect (__init__ no_langdetect true)
           (VStr (text_of "  Hello World  ")));
    reflexivity.
Defined.

Lemma library_result_shape_witness :
  let rt := langdetect_saying "fa" in
  let r := library_accepted (library_answer "fa") pakistan_zindabad in
  outcome (detect rt (__init__ rt true) (VStr pakistan_zindabad)) = Ok r
  /\ method r = "library"%string
  /\ exists s code,
       VStr pakistan_zindabad = VStr s
       /\ inconclusive s
       /\ detect_text rt s = Some code
       /\ success r = true
       /\ ((code = "ur"%string /\ language r = "ur"%string /\ confidence r = 95%Q)
           \/ (code = "en"%string /\ language r = "en"%string /\ confidence r = 95%Q)
           \/ (code <> "ur"%string /\ code <> "en"%string
               /\ language r = "en"%string /\ confidence r = 60%Q)).
Proof.
  cbv zeta. split; [reflexivity|]. split; [reflexivity|].
  apply (library_result_shape (langdetect_saying "fa")
           (__init__ (langdetect_saying "fa") true) (VStr pakistan_zindabad));
    reflexivity.
Defined.

Lemma detect_without_fallback_witness :
  let rt := langdetect_saying "en" in
  detect rt (__init__ rt false) (VStr test_salam)
  = detect no_langdetect (__init__ no_langdetect true) (VStr test_salam)
  /\ calls (detect rt (__init__ rt false) (VStr test_salam)) = []
  /\ (forall r, outcome (detect rt (__init__ rt false) (VStr test_salam)) = Ok r ->
                success r = true -> method r = "unicode"%string).
Proof.
  apply (detect_without_fallback (langdetect_saying "en") false (VStr test_salam)).
  left. reflexivity.
Defined.

Lemma validation_ignores_padding_witness :
  blank (text_of "  ") /\ blank [10; 9]
  /\ LanguageDetector._validate_input
       (VStr (text_of "  " ++ text_of "Hi!" ++ [10; 9]))
     = LanguageDetector._validate_input (VStr (text_of "Hi!")).
Proof.
  assert (Hb : blank (text_of "  ")) by (repeat constructor).
  assert (Ha : blank [10; 9]) by (repeat constructor).
  split; [exact Hb|]. split; [exact Ha|].
  apply validation_ignores_padding; assumption.
Defined.

Lemma analysis_ignores_skipped_and_order_witness :
  let s1 := text_of "ab, " ++ salam in
  let s2 := salam ++ text_of " (ab)" in
  Permutation (filter analyzable s1) (filter analyzable s2)
  /\ _detect_by_unicode s1 = _detect_by_unicode s2
  /\ forall threshold,
       is_mixed_language s1 threshold = is_mixed_language s2 threshold.
Proof.
  cbv zeta.
  assert (Hp : Permutation (filter analyzable (text_of "ab, " ++ salam))
                           (filter analyzable (salam ++ text_of " (ab)"))).
  { change (Permutation (text_of "ab" ++ salam) (salam ++ text_of "ab")).
    apply Permutation_app_comm. }
  split; [exact Hp|].
  apply analysis_ignores_skipped_and_order. exact Hp.
Defined.

Lemma target_count_all_in_ranges_witness :
  target_script 0x060C = true /\ analyzable 0x060C = true.
Proof.
  split; [reflexivity|].
  apply (proj2 (target_count_all_in_ranges [])). reflexivity.
Defined.

Lemma no_target_character_is_english_witness :
  let s := text_of "Hello World" in
  let rt := langdetect_saying "ur" in
  passes_validation (VStr s)
  /\ 0 < analyzable_count s
  /\ Forall (fun c => target_script c = false) s
  /\ exists r,
       detect rt (__init__ rt true) (VStr s) = ([], Ok r)
       /\ language r = "en"%string
       /\ method r = "unicode"%string
       /\ (confidence r == 99)%Q.
Proof.
  cbv zeta.
  assert (Hv : passes_validation (VStr (text_of "Hello World"))) by reflexivity.
  assert (Hpos : 0 < analyzable_count (text_of "Hello World")) by reflexivity.
  assert (Hall : Forall (fun c => target_script c = false) (text_of "Hello World"))
    by (repeat constructor).
  repeat (split; [assumption|]).
  apply no_target_character_is_english; assumption.
Defined.

Lemma all_target_is_urdu_witness :
  let s := salam ++ 32 :: dunya in
  let rt := langdetect_saying "en" in
  passes_validation (VStr s)
  /\ 0 < analyzable_count s
  /\ Forall (fun c => analyzable c = true -> target_script c = true) s
  /\ exists r,
       detect rt (__init__ rt true) (VStr s) = ([], Ok r)
       /\ language r = "ur"%string
       /\ method r = "unicode"%string
       /\ (confidence r == 99)%Q.
Proof.
  cbv zeta.
  assert (Hv : passes_validation (VStr (salam ++ 32 :: dunya))) by reflexivity.
  assert (Hpos : 0 < analyzable_count (salam ++ 32 :: dunya)) by reflexivity.
  assert (Hall : Forall (fun c => analyzable c = true -> target_script c = true)
                        (salam ++ 32 :: dunya)).
  { repeat (constructor;
            [intros H; first [reflexivity | vm_compute in H; discriminate H]|]).
    constructor. }
  repeat (split; [assumption|]).
  apply all_target_is_urdu; assumption.
Defined.

Lemma not_mixed_is_certain_witness :
  let s := text_of "Hello World" in
  let rt := langdetect_saying "ur" in
  passes_validation (VStr s)
  /\ 0 < analyzable_count s
  /\ is_mixed_language s 0.20 = Ok false
  /\ exists r,
       detect rt (__init__ rt true) (VStr s) = ([], Ok r)
       /\ method r = "unicode"%string
       /\ (confidence r == 99)%Q.
Proof.
  cbv zeta.
  assert (Hv : passes_validation (VStr (text_of "Hello World"))) by reflexivity.
  assert (Hpos : 0 < analyzable_count (text_of "Hello World")) by reflexivity.
  assert (Hm : is_mixed_language (text_of "Hello World") 0.20 = Ok false)
    by reflexivity.
  repeat (split; [assumption|]).
  apply not_mixed_is_certain; assumption.
Defined.

Lemma is_mixed_threshold_monotone_witness :
  (0.10 <= 0.20)%Q
  /\ is_mixed_language hello_salam_world 0.20 = Ok true
  /\ is_mixed_language hello_salam_world 0.10 = Ok true.
Proof.
  assert (Hle : (0.10 <= 0.20)%Q) by by_evaluation.
  assert (Hm : is_mixed_language hello_salam_world 0.20 = Ok true) by reflexivity.
  split; [exact Hle|]. split; [exact Hm|].
  exact (is_mixed_threshold_monotone hello_salam_world 0.10 0.20 Hle Hm).
Defined.

Lemma is_mixed_degenerate_thresholds_witness :
  (1 # 2 < 0.60)%Q
  /\ is_mixed_language hello_salam_world 0.60 = Ok false
  /\ (0 <= 0)%Q
  /\ 0 < analyzable_count (text_of "Hello World")
  /\ is_mixed_language (text_of "Hello World") 0 = Ok true.
Proof.
  assert (H1 : (1 # 2 < 0.60)%Q) by by_evaluation.
  assert (H2 : (0 <= 0)%Q) by by_evaluation.
  assert (H3 : 0 < analyzable_count (text_of "Hello World")) by reflexivity.
  split; [exact H1|].
  split; [exact (proj1 (is_mixed_degenerate_thresholds hello_salam_world 0.60) H1)|].
  split; [exact H2|]. split; [exact H3|].
  exact (proj2 (is_mixed_degenerate_thresholds (text_of "Hello World") 0) H2 H3).
Defined.

Lemma process_result_invariant_witness :
  let r := TextInputHandler.process plain_text_runtime
             (VStr (text_of "  Hello   World!  ")) in
  TextInputHandler.success r = true
  /\ TextInputHandler.text r = text_of "Hello World!"
  /\ TextInputHandler.char_count r = len (TextInputHandler.text r)
  /\ 1 <= TextInputHandler.word_count r
  /\ stripped (TextInputHandler.text r).
Proof.
  cbv zeta.
  assert (Hs : TextInputHandler.success
                 (TextInputHandler.process plain_text_runtime
                    (VStr (text_of "  Hello   World!  "))) = true)
    by reflexivity.
  split; [exact Hs|]. split; [reflexivity|].
  destruct (process_result_invariant plain_text_runtime
              (VStr (text_of "  Hello   World!  "))) as (_ & Hok & _).
  destruct (Hok Hs) as (_ & _ & Hc & _ & Hw & Hst & _).
  auto.
Defined.

Lemma process_agrees_with_validate_only_witness :
  TextInputHandler.validate_only (VInt 5)
  = (false, Some "Text must be a string, got int"%string)
  /\ TextInputHandler.process plain_text_runtime (VInt 5)
     = TextInputHandler._create_error_result (VInt 5)
         "Text must be a string, got int".
Proof.
  split; [reflexivity|].
  apply (proj1 (process_agrees_with_validate_only plain_text_runtime (VInt 5))).
  reflexivity.
Defined.

Lemma processed_text_for_detector_witness :
  let r := TextInputHandler.process plain_text_runtime (VStr (text_of " Hi ")) in
  TextInputHandler.success r = true
  /\ strip (TextInputHandler.text r) = TextInputHandler.text r
  /\ (passes_validation (VStr (TextInputHandler.text r))
      <-> 3 <= TextInputHandler.char_count r)
  /\ (TextInputHandler.char_count r < 3 ->
      LanguageDetector._validate_input (VStr (TextInputHandler.text r))
      = Some "Text too short for reliable detection (minimum 3 characters)"%string).
Proof.
  cbv zeta. split; [reflexivity|].
  apply (processed_text_for_detector plain_text_runtime (VStr (text_of " Hi "))).
  reflexivity.
Defined.

Lemma cleaning_and_script_analysis_witness :
  let s := text_of "@home " ++ salam in
  0 < analyzable_count (TextInputHandler._clean_text plain_text_runtime s)
  /\ (script_ratio s
      <= script_ratio (TextInputHandler._clean_text plain_text_runtime s))%Q.
Proof.
  cbv zeta.
  assert (Hpos : 0 < analyzable_count
                       (TextInputHandler._clean_text plain_text_runtime
                          (text_of "@home " ++ salam))) by reflexivity.
  split; [exact Hpos|].
  destruct (cleaning_and_script_analysis plain_text_runtime
              (text_of "@home " ++ salam)) as (_ & _ & _ & Hr).
  exact (Hr Hpos).
Defined.
